(** * Inter-Agency-Network private-files chaincode (main.go)

    A shallow embedding of the chaincode handlers [initFile], [readFile],
    [readFilePrivateDetails], [transferFile], [delete], [getFilesByRange]
    and the two digest readers, together with the dispatcher [Invoke].

    - Go [string] and [[]byte] are byte sequences: Rocq [string].
    - Go [int] (64 bit) is [Z]; the handlers only compare it with 0.
    - [shim.ChaincodeStubInterface] is the record [ChaincodeStub]: the
      private-data collections as finite maps, the transient map, an oracle
      telling which adapter calls report an error, and a log of the calls
      issued so far.
    - A handler is a state transformer with early return, [Tx].
    - [encoding/json] is the interface [json.Codec]; [encoding_json] is an
      executable instance used to run the handlers on JSON text. *)

From Stdlib Require Import ZArith Ascii String.
From stdpp Require Import base strings gmap list sorting pretty.

Local Open Scope string_scope.
Set Warnings "-register-all".

(** ** Values shared with the Go runtime *)

Abbreviation bytes := string.

(** A Go [(value, error)] pair where exactly one side is meaningful. *)
Inductive result (A : Type) : Type :=
  | Ok (a : A)
  | Err (err : string).
Arguments Ok {A} a.
Arguments Err {A} err.

(** The double quote character, for messages that contain one. *)
Definition dquote : string := String "034"%char EmptyString.

Module shim.
(** [pb.Response] as built by [shim.Success] and [shim.Error]; a [nil]
    payload is [None]. *)
Inductive Response : Type :=
  | Success (payload : option bytes)
  | Error (message : string).
End shim.

(** ** Record shapes *)

Module file.
Record t : Type := mk {
  ObjectType : string;   (* json docType *)
  Name : string;         (* json name *)
  IPFShash : string;     (* json ipfshash *)
  Timestamp : Z;         (* json timestamp *)
  Owner : string         (* json owner *)
}.
End file.

Module filePrivateDetails.
Record t : Type := mk {
  ObjectType : string;   (* json docType *)
  Name : string;         (* json name *)
  Folio : Z              (* json folio *)
}.
End filePrivateDetails.

Module fileTransientInput.
Record t : Type := mk {
  Name : string;         (* json name *)
  IPFShash : string;     (* json ipfshash *)
  Timestamp : Z;         (* json size *)
  Owner : string;        (* json owner *)
  Folio : Z              (* json folio *)
}.
End fileTransientInput.

Module fileDeleteTransientInput.
Record t : Type := mk {
  Name : string          (* json name *)
}.
End fileDeleteTransientInput.

Module fileTransferTransientInput.
Record t : Type := mk {
  Name : string;         (* json name *)
  Owner : string         (* json owner *)
}.
End fileTransferTransientInput.

(** ** encoding/json, as an interface

    [json.Marshal] cannot fail on structs made of strings and ints, so it is
    a total function here and the handlers' [err != nil] test after it is
    dead code. [json.Unmarshal] into a fresh struct either fails or yields
    the struct. *)
Module json.
Class Codec : Type := {
  Marshal_file : file.t → bytes;
  Marshal_filePrivateDetails : filePrivateDetails.t → bytes;
  Unmarshal_file : bytes → result file.t;
  Unmarshal_fileTransientInput : bytes → result fileTransientInput.t;
  Unmarshal_fileDeleteTransientInput : bytes → result fileDeleteTransientInput.t;
  Unmarshal_fileTransferTransientInput : bytes → result fileTransferTransientInput.t
}.
End json.

(** ** The ledger adapter *)

Module Call.
(** One call on the stub, as recorded in the log and as seen by the
    failure oracle. [Next key] is the [resultsIterator.Next()] that is
    about to yield [key]. *)
Inductive t : Type :=
  | GetTransient
  | GetPrivateData (collection key : string)
  | GetPrivateDataHash (collection key : string)
  | PutPrivateData (collection key : string) (value : bytes)
  | DelPrivateData (collection key : string)
  | CreateCompositeKey (objectType : string) (attributes : list string)
  | GetPrivateDataByRange (collection startKey endKey : string)
  | Next (key : string).
End Call.

Record ChaincodeStub : Type := mkStub {
  transient : gmap string bytes;
  collections : gmap string (gmap string bytes);
  fails : Call.t → option string;
  digest : bytes → bytes;
  calls : list Call.t
}.

(** The content of one collection; a collection never written is empty. *)
Definition collection (s : ChaincodeStub) (name : string) : gmap string bytes :=
  default ∅ (collections s !! name).

Definition log (c : Call.t) (s : ChaincodeStub) : ChaincodeStub :=
  mkStub (transient s) (collections s) (fails s) (digest s) (c :: calls s).

Definition set_collection (name : string) (m : gmap string bytes)
    (s : ChaincodeStub) : ChaincodeStub :=
  mkStub (transient s) (<[name := m]> (collections s)) (fails s) (digest s)
         (calls s).

(** ** Handlers: state passing with early return *)

Definition Tx (A : Type) : Type :=
  ChaincodeStub → ChaincodeStub * (A + shim.Response).

Definition Tx_ret {A} (a : A) : Tx A := λ s, (s, inl a).

Definition Tx_bind {A B} (m : Tx A) (k : A → Tx B) : Tx B := λ s,
  match m s with
  | (s', inl a) => k a s'
  | (s', inr r) => (s', inr r)
  end.

(** [return r] in the middle of a Go function body. *)
Definition Return {A} (r : shim.Response) : Tx A := λ s, (s, inr r).

Global Instance Tx_mret : MRet Tx := @Tx_ret.
Global Instance Tx_mbind : MBind Tx := λ A B k m, Tx_bind m k.

(** [if cond { return r }] *)
Definition when (cond : bool) (r : shim.Response) : Tx unit :=
  if cond then Return r else Tx_ret tt.

(** [v, err := f(); if err != nil { return onerr(err) }] *)
Definition try {A} (m : Tx (result A)) (onerr : string → shim.Response) : Tx A :=
  r ← m;
  match r with
  | Ok a => mret a
  | Err err => Return (onerr err)
  end.

(** The response of a handler together with the stub it leaves behind. *)
Definition run (h : Tx shim.Response) (s : ChaincodeStub)
    : shim.Response * ChaincodeStub :=
  match h s with
  | (s', inl r) => (r, s')
  | (s', inr r) => (r, s')
  end.

(** ** The stub's operations *)

(** Byte-wise lexicographic order of keys, as the ordered store sees them. *)
Definition key_le (a b : string * bytes) : Prop := String.le a.1 b.1.

Global Instance key_le_dec : RelDecision key_le.
Proof. intros a b. unfold key_le. apply _. Defined.

(** The range of the ledger: [startKey] inclusive, [endKey] exclusive, an
    empty [endKey] standing for no upper bound. *)
Definition in_range (startKey endKey : string) (kv : string * bytes) : bool :=
  bool_decide (String.le startKey kv.1)
  && (bool_decide (endKey = EmptyString) || negb (bool_decide (String.le endKey kv.1))).

(** What a range iterator over the map [m] yields, in order. *)
Definition range_entries (m : gmap string bytes) (startKey endKey : string)
    : list (string * bytes) :=
  merge_sort key_le (filter (λ kv, in_range startKey endKey kv = true) (map_to_list m)).

(** The shim keeps the keys that start with a zero byte for composite
    keys: a range query stands in the byte 1 for an empty start key, and
    turns down a start or end key that starts with a zero byte. *)
Definition emptyKeySubstitute : string := String "001"%char EmptyString.

Definition starts_with_zero (key : string) : bool :=
  match key with
  | String c _ => bool_decide (c = "000"%char)
  | EmptyString => false
  end.

Fixpoint validateSimpleKeys (simpleKeys : list string) : option string :=
  match simpleKeys with
  | [] => None
  | key :: simpleKeys =>
    if starts_with_zero key
    then Some ("first character of the key [" +:+ key
               +:+ "] contains a null character which is not allowed")
    else validateSimpleKeys simpleKeys
  end.

(** The start key the ledger is asked with. *)
Definition substitute_empty (startKey : string) : string :=
  if bool_decide (startKey = EmptyString) then emptyKeySubstitute else startKey.

(** What the shim answers to a range query on the partition [m] when the
    adapter reports no error: the error of its own check of the keys, or
    the iterator. *)
Definition range_iterator (m : gmap string bytes) (startKey endKey : string)
    : result (list (string * bytes)) :=
  let startKey := substitute_empty startKey in
  match validateSimpleKeys [startKey; endKey] with
  | Some err => Err err
  | None => Ok (range_entries m startKey endKey)
  end.

Module stub.
(** Every call is logged; the oracle may make it report an error, in which
    case it has no effect. *)
Definition call {A} (c : Call.t) (effect : ChaincodeStub → ChaincodeStub * A)
    : Tx (result A) := λ s,
  let s := log c s in
  match fails s c with
  | Some err => (s, inl (Err err))
  | None => let '(s', a) := effect s in (s', inl (Ok a))
  end.

Definition GetTransient : Tx (result (gmap string bytes)) :=
  call Call.GetTransient (λ s, (s, transient s)).

Definition GetPrivateData (coll key : string) : Tx (result (option bytes)) :=
  call (Call.GetPrivateData coll key) (λ s, (s, collection s coll !! key)).

Definition GetPrivateDataHash (coll key : string) : Tx (result (option bytes)) :=
  call (Call.GetPrivateDataHash coll key)
       (λ s, (s, digest s <$> collection s coll !! key)).

Definition PutPrivateData (coll key : string) (value : bytes) : Tx (result unit) :=
  call (Call.PutPrivateData coll key value)
       (λ s, (set_collection coll (<[key := value]> (collection s coll)) s, tt)).

Definition DelPrivateData (coll key : string) : Tx (result unit) :=
  call (Call.DelPrivateData coll key)
       (λ s, (set_collection coll (delete key (collection s coll)) s, tt)).

(** The composite key of the shim: a zero byte, the object type, and every
    attribute, each followed by a zero byte. *)
Definition compositeKey (objectType : string) (attributes : list string) : string :=
  String "000"%char objectType +:+ String "000"%char EmptyString
    +:+ foldr (λ att ck, att +:+ String "000"%char EmptyString +:+ ck) EmptyString attributes.

Definition CreateCompositeKey (objectType : string) (attributes : list string)
    : Tx (result string) :=
  call (Call.CreateCompositeKey objectType attributes)
       (λ s, (s, compositeKey objectType attributes)).

(** The iterator is the list of entries still to be yielded. The oracle
    stands for any error the call reports; when it reports none, the shim's
    own check of the keys decides. The handlers pass a constant collection
    name, so the shim's check that the name is not empty is left out. *)
Definition GetPrivateDataByRange (coll startKey endKey : string)
    : Tx (result (list (string * bytes))) := λ s,
  let s := log (Call.GetPrivateDataByRange coll startKey endKey) s in
  match fails s (Call.GetPrivateDataByRange coll startKey endKey) with
  | Some err => (s, inl (Err err))
  | None => (s, inl (range_iterator (collection s coll) startKey endKey))
  end.

Definition Next (queryResponse : string * bytes) : Tx (result (string * bytes)) :=
  call (Call.Next queryResponse.1) (λ s, (s, queryResponse)).
End stub.

(** ** The chaincode *)

Section FilesPrivateChaincode.
Context `{!json.Codec}.

(** The text that opens the JSON-shaped messages of the readers (a brace,
    the quoted word Error, a colon and a quote), and the quote and brace
    that close them. *)
Definition jsonResp_open : string :=
  "{" +:+ dquote +:+ "Error" +:+ dquote +:+ ":" +:+ dquote.
Definition jsonResp_close : string := dquote +:+ "}".

(** Init initializes chaincode *)
Definition Init : Tx shim.Response := mret (shim.Success None).

(** initFile - create a new file, store into chaincode state *)
Definition initFile (args : list string) : Tx shim.Response :=
  when (bool_decide (length args ≠ 0))
    (shim.Error "Incorrect number of arguments. Private file data must be passed in transient map.");;
  transMap ← try stub.GetTransient
    (λ err, shim.Error ("Error getting transient: " +:+ err));
  match transMap !! "file" with
  | None => Return (shim.Error "file must be a key in the transient map")
  | Some fileJsonBytes =>
    when (bool_decide (String.length fileJsonBytes = 0))
      (shim.Error "file value in the transient map must be a non-empty JSON string");;
    fileInput ← try (mret (json.Unmarshal_fileTransientInput fileJsonBytes))
      (λ _, shim.Error ("Failed to decode JSON of: " +:+ fileJsonBytes));
    when (bool_decide (String.length (fileTransientInput.Name fileInput) = 0))
      (shim.Error "name field must be a non-empty string");;
    when (bool_decide (String.length (fileTransientInput.IPFShash fileInput) = 0))
      (shim.Error "ipfshash field must be a non-empty string");;
    when (bool_decide (fileTransientInput.Timestamp fileInput ≤ 0)%Z)
      (shim.Error "size field must be a positive integer");;
    when (bool_decide (String.length (fileTransientInput.Owner fileInput) = 0))
      (shim.Error "owner field must be a non-empty string");;
    when (bool_decide (fileTransientInput.Folio fileInput ≤ 0)%Z)
      (shim.Error "folio field must be a positive integer");;
    (* ==== Check if file already exists ==== *)
    fileAsBytes ← try (stub.GetPrivateData "collectionFiles" (fileTransientInput.Name fileInput))
      (λ err, shim.Error ("Failed to get file: " +:+ err));
    when (bool_decide (fileAsBytes ≠ None))
      (shim.Error ("This file already exists: " +:+ fileTransientInput.Name fileInput));;
    (* ==== Create file object and marshal to JSON ==== *)
    let file := file.mk "file" (fileTransientInput.Name fileInput)
                  (fileTransientInput.IPFShash fileInput)
                  (fileTransientInput.Timestamp fileInput)
                  (fileTransientInput.Owner fileInput) in
    let fileJSONasBytes := json.Marshal_file file in
    (* === Save file to state === *)
    try (stub.PutPrivateData "collectionFiles" (fileTransientInput.Name fileInput) fileJSONasBytes)
      (λ err, shim.Error err);;
    (* ==== Create file private details object with folio ==== *)
    let filePrivateDetails := filePrivateDetails.mk "filePrivateDetails"
                  (fileTransientInput.Name fileInput)
                  (fileTransientInput.Folio fileInput) in
    let filePrivateDetailsBytes := json.Marshal_filePrivateDetails filePrivateDetails in
    try (stub.PutPrivateData "collectionFilePrivateDetails" (fileTransientInput.Name fileInput)
           filePrivateDetailsBytes)
      (λ err, shim.Error err);;
    (* ==== Index the file ==== *)
    let indexName := "ipfshash~name" in
    ipfshashNameIndexKey ← try (stub.CreateCompositeKey indexName
                                  [file.IPFShash file; file.Name file])
      (λ err, shim.Error err);
    let value := String "000"%char EmptyString in
    (* the error of this call is not looked at *)
    stub.PutPrivateData "collectionFiles" ipfshashNameIndexKey value;;
    (* ==== File saved and indexed. Return success ==== *)
    mret (shim.Success None)
  end.

(** readFile - read a file from chaincode state *)
Definition readFile (args : list string) : Tx shim.Response :=
  match args with
  | [name] =>
    r ← stub.GetPrivateData "collectionFiles" name;
    match r with
    | Err err =>
      Return (shim.Error (jsonResp_open +:+ "Failed to get state for " +:+ name +:+ ": "
                            +:+ err +:+ jsonResp_close))
    | Ok None =>
      Return (shim.Error (jsonResp_open +:+ "File does not exist: " +:+ name
                            +:+ jsonResp_close))
    | Ok (Some valAsbytes) => mret (shim.Success (Some valAsbytes))
    end
  | _ => Return (shim.Error "Incorrect number of arguments. Expecting name of the file to query")
  end.

(** readFilePrivateDetails - read a file private details from chaincode state *)
Definition readFilePrivateDetails (args : list string) : Tx shim.Response :=
  match args with
  | [name] =>
    r ← stub.GetPrivateData "collectionFilePrivateDetails" name;
    match r with
    | Err err =>
      Return (shim.Error (jsonResp_open +:+ "Failed to get private details for " +:+ name
                            +:+ ": " +:+ err +:+ jsonResp_close))
    | Ok None =>
      Return (shim.Error (jsonResp_open +:+ "File private details does not exist: " +:+ name
                            +:+ jsonResp_close))
    | Ok (Some valAsbytes) => mret (shim.Success (Some valAsbytes))
    end
  | _ => Return (shim.Error "Incorrect number of arguments. Expecting name of the file to query")
  end.

(** getFileHash - get file private data hash for collectionFiles *)
Definition getFileHash (args : list string) : Tx shim.Response :=
  match args with
  | [name] =>
    r ← stub.GetPrivateDataHash "collectionFiles" name;
    match r with
    | Err err =>
      Return (shim.Error (jsonResp_open +:+ "Failed to get file private data hash for "
                            +:+ name +:+ jsonResp_close))
    | Ok None =>
      Return (shim.Error (jsonResp_open +:+ "File private file data hash does not exist: "
                            +:+ name +:+ jsonResp_close))
    | Ok (Some valAsbytes) => mret (shim.Success (Some valAsbytes))
    end
  | _ => Return (shim.Error "Incorrect number of arguments. Expecting name of the file to query")
  end.

(** getFilePrivateDetailsHash - get file private data hash for
    collectionFilePrivateDetails *)
Definition getFilePrivateDetailsHash (args : list string) : Tx shim.Response :=
  match args with
  | [name] =>
    r ← stub.GetPrivateDataHash "collectionFilePrivateDetails" name;
    match r with
    | Err err =>
      Return (shim.Error (jsonResp_open +:+ "Failed to get file private details hash for "
                            +:+ name +:+ ": " +:+ err +:+ jsonResp_close))
    | Ok None =>
      Return (shim.Error (jsonResp_open +:+ "File private details hash does not exist: "
                            +:+ name +:+ jsonResp_close))
    | Ok (Some valAsbytes) => mret (shim.Success (Some valAsbytes))
    end
  | _ => Return (shim.Error "Incorrect number of arguments. Expecting name of the file to query")
  end.

(** delete - remove a file key/value pair from state *)
Definition delete (args : list string) : Tx shim.Response :=
  when (bool_decide (length args ≠ 0))
    (shim.Error "Incorrect number of arguments. Private file name must be passed in transient map.");;
  transMap ← try stub.GetTransient
    (λ err, shim.Error ("Error getting transient: " +:+ err));
  match transMap !! "file_delete" with
  | None => Return (shim.Error "file_delete must be a key in the transient map")
  | Some fileDeleteJsonBytes =>
    when (bool_decide (String.length fileDeleteJsonBytes = 0))
      (shim.Error "file_delete value in the transient map must be a non-empty JSON string");;
    fileDeleteInput ← try (mret (json.Unmarshal_fileDeleteTransientInput fileDeleteJsonBytes))
      (λ _, shim.Error ("Failed to decode JSON of: " +:+ fileDeleteJsonBytes));
    let name := fileDeleteTransientInput.Name fileDeleteInput in
    when (bool_decide (String.length name = 0))
      (shim.Error "name field must be a non-empty string");;
    (* to maintain the ipfshash~name index, read the file first *)
    r ← try (stub.GetPrivateData "collectionFiles" name)
      (λ _, shim.Error ("Failed to get state for " +:+ name));
    match r with
    | None => Return (shim.Error ("File does not exist: " +:+ name))
    | Some valAsbytes =>
      fileToDelete ← try (mret (json.Unmarshal_file valAsbytes))
        (λ _, shim.Error ("Failed to decode JSON of: " +:+ valAsbytes));
      (* delete the file from state *)
      try (stub.DelPrivateData "collectionFiles" name)
        (λ err, shim.Error ("Failed to delete state:" +:+ err));;
      (* Also delete the file from the ipfshash~name index *)
      let indexName := "ipfshash~name" in
      ipfshashNameIndexKey ← try (stub.CreateCompositeKey indexName
                                    [file.IPFShash fileToDelete; file.Name fileToDelete])
        (λ err, shim.Error err);
      try (stub.DelPrivateData "collectionFiles" ipfshashNameIndexKey)
        (λ err, shim.Error ("Failed to delete state:" +:+ err));;
      (* Finally, delete private details of file *)
      try (stub.DelPrivateData "collectionFilePrivateDetails" name)
        (λ err, shim.Error err);;
      mret (shim.Success None)
    end
  end.

(** transfer a file by setting a new owner name on the file *)
Definition transferFile (args : list string) : Tx shim.Response :=
  when (bool_decide (length args ≠ 0))
    (shim.Error "Incorrect number of arguments. Private file data must be passed in transient map.");;
  transMap ← try stub.GetTransient
    (λ err, shim.Error ("Error getting transient: " +:+ err));
  match transMap !! "file_owner" with
  | None => Return (shim.Error "file_owner must be a key in the transient map")
  | Some fileOwnerJsonBytes =>
    when (bool_decide (String.length fileOwnerJsonBytes = 0))
      (shim.Error "file_owner value in the transient map must be a non-empty JSON string");;
    fileTransferInput ← try (mret (json.Unmarshal_fileTransferTransientInput fileOwnerJsonBytes))
      (λ _, shim.Error ("Failed to decode JSON of: " +:+ fileOwnerJsonBytes));
    when (bool_decide (String.length (fileTransferTransientInput.Name fileTransferInput) = 0))
      (shim.Error "name field must be a non-empty string");;
    when (bool_decide (String.length (fileTransferTransientInput.Owner fileTransferInput) = 0))
      (shim.Error "owner field must be a non-empty string");;
    r ← try (stub.GetPrivateData "collectionFiles" (fileTransferTransientInput.Name fileTransferInput))
      (λ err, shim.Error ("Failed to get file:" +:+ err));
    match r with
    | None => Return (shim.Error ("File does not exist: "
                                    +:+ fileTransferTransientInput.Name fileTransferInput))
    | Some fileAsBytes =>
      fileToTransfer ← try (mret (json.Unmarshal_file fileAsBytes))
        (λ err, shim.Error err);
      (* change the owner *)
      let fileToTransfer := file.mk (file.ObjectType fileToTransfer)
                              (file.Name fileToTransfer)
                              (file.IPFShash fileToTransfer)
                              (file.Timestamp fileToTransfer)
                              (fileTransferTransientInput.Owner fileTransferInput) in
      let fileJSONasBytes := json.Marshal_file fileToTransfer in
      (* rewrite the file *)
      try (stub.PutPrivateData "collectionFiles" (file.Name fileToTransfer) fileJSONasBytes)
        (λ err, shim.Error err);;
      mret (shim.Success None)
    end
  end.

(** One array member of the range query result, the format of the
    [fmt.Sprintf] call: the key between quotes under Key, the raw value
    unquoted under Record. *)
Definition Sprintf_member (queryResponse : string * bytes) : string :=
  "{" +:+ dquote +:+ "Key" +:+ dquote +:+ ":" +:+ dquote +:+ queryResponse.1 +:+ dquote
      +:+ ", " +:+ dquote +:+ "Record" +:+ dquote +:+ ":" +:+ queryResponse.2 +:+ "}".

(** The loop [for resultsIterator.HasNext() { ... }] of [getFilesByRange]. *)
Fixpoint getFilesByRange_loop (resultsIterator : list (string * bytes))
    (bArrayMemberAlreadyWritten : bool) (buffer : string) : Tx string :=
  match resultsIterator with
  | [] => mret buffer
  | entry :: resultsIterator =>
    queryResponse ← try (stub.Next entry) (λ err, shim.Error err);
    (* Add a comma before array members, suppress it for the first one *)
    let buffer := if bArrayMemberAlreadyWritten then buffer +:+ "," else buffer in
    let buffer := buffer +:+ Sprintf_member queryResponse in
    getFilesByRange_loop resultsIterator true buffer
  end.

(** getFilesByRange performs a range query based on the start and end keys
    provided. *)
Definition getFilesByRange (args : list string) : Tx shim.Response :=
  when (bool_decide (length args < 2))
    (shim.Error "Incorrect number of arguments. Expecting 2");;
  match args with
  | startKey :: endKey :: _ =>
    resultsIterator ← try (stub.GetPrivateDataByRange "collectionFiles" startKey endKey)
      (λ err, shim.Error err);
    (* buffer is a JSON array containing QueryResults *)
    buffer ← getFilesByRange_loop resultsIterator false "[";
    let buffer := buffer +:+ "]" in
    mret (shim.Success (Some buffer))
  | _ => Return (shim.Error "Incorrect number of arguments. Expecting 2")
  end.

(** Invoke - the entry point for invocations *)
Definition Invoke (function : string) (args : list string) : Tx shim.Response :=
  if bool_decide (function = "initFile") then initFile args
  else if bool_decide (function = "readFile") then readFile args
  else if bool_decide (function = "readFilePrivateDetails") then readFilePrivateDetails args
  else if bool_decide (function = "transferFile") then transferFile args
  else if bool_decide (function = "delete") then delete args
  else if bool_decide (function = "getFilesByRange") then getFilesByRange args
  else if bool_decide (function = "getFileHash") then getFileHash args
  else if bool_decide (function = "getFilePrivateDetailsHash") then getFilePrivateDetailsHash args
  else Return (shim.Error "Received unknown function invocation").

End FilesPrivateChaincode.

(** ** An executable encoding/json

    A model of Go's [json.Unmarshal] and [json.Marshal] at the five struct
    types of the chaincode: the full JSON grammar is parsed, with the
    decoder's bound on the nesting of arrays and objects; ill-formed UTF-8
    in a string is replaced by U+FFFD; object keys are matched with the
    struct tags exactly, else under the decoder's case folding (ASCII
    letters up to case, the long s U+017F as s and the Kelvin sign U+212A
    as k); unknown keys are skipped, [null] leaves a field at its zero
    value, a later duplicate key overrides an earlier one, and a value of
    the wrong JSON type makes the call fail. The struct tags of main.go are
    ASCII words. Not modelled: the texts of the decoder's error messages. *)
Module JSON.

Inductive value : Type :=
  | Null
  | Bool (b : bool)
  | Number (literal : string)
  | Str (s : string)
  | Array (elements : list value)
  | Object (members : list (string * value)).

Definition code (c : ascii) : N := N_of_ascii c.
Definition char (n : N) : ascii := ascii_of_N n.

Definition is_space (c : ascii) : bool :=
  bool_decide (code c = 32 ∨ code c = 9 ∨ code c = 10 ∨ code c = 13)%N.

Definition is_digit (c : ascii) : bool :=
  bool_decide (48 ≤ code c ≤ 57)%N.

Fixpoint skip_space (s : string) : string :=
  match s with
  | String c r => if is_space c then skip_space r else s
  | EmptyString => s
  end.

(** *** Strings *)

Definition hex_digit (c : ascii) : option N :=
  let n := code c in
  if bool_decide (48 ≤ n ≤ 57)%N then Some (n - 48)%N
  else if bool_decide (97 ≤ n ≤ 102)%N then Some (n - 87)%N
  else if bool_decide (65 ≤ n ≤ 70)%N then Some (n - 55)%N
  else None.

Definition getu4 (a b c d : ascii) : option N :=
  x ← hex_digit a; y ← hex_digit b; z ← hex_digit c; w ← hex_digit d;
  Some (x * 4096 + y * 256 + z * 16 + w)%N.

(** The UTF-8 encoding of a code point. *)
Definition encode_rune (r : N) : string :=
  if bool_decide (r < 128)%N then String (char r) EmptyString
  else if bool_decide (r < 2048)%N then
    String (char (192 + r / 64)) (String (char (128 + r mod 64)) EmptyString)
  else if bool_decide (r < 65536)%N then
    String (char (224 + r / 4096))
      (String (char (128 + (r / 64) mod 64)) (String (char (128 + r mod 64)) EmptyString))
  else
    String (char (240 + r / 262144))
      (String (char (128 + (r / 4096) mod 64))
         (String (char (128 + (r / 64) mod 64)) (String (char (128 + r mod 64)) EmptyString))).

Definition RuneError : N := 65533.

Definition is_surrogate (r : N) : bool := bool_decide (55296 ≤ r < 57344)%N.

(** [utf16.DecodeRune]: a high surrogate followed by a low one. *)
Definition decode_surrogates (r1 r2 : N) : option N :=
  if bool_decide (55296 ≤ r1 < 56320 ∧ 56320 ≤ r2 < 57344)%N
  then Some ((r1 - 55296) * 1024 + (r2 - 56320) + 65536)%N
  else None.

(** The second half of a surrogate pair, when the text goes on with one. *)
Definition next_u4 (s : string) : option N :=
  match s with
  | String "\" (String "u" (String a (String b (String c (String d _))))) => getu4 a b c d
  | _ => None
  end.

(** *** UTF-8 *)

Definition is_cont (c : ascii) : bool := bool_decide (128 ≤ code c < 192)%N.

(** For the first byte of a sequence of several bytes: the bounds of the
    second byte and the number of bytes after the first. *)
Definition utf8_first (b0 : N) : option (N * N * nat) :=
  if bool_decide (194 ≤ b0 ≤ 223)%N then Some (128%N, 191%N, 1)
  else if bool_decide (b0 = 224)%N then Some (160%N, 191%N, 2)
  else if bool_decide (b0 = 237)%N then Some (128%N, 159%N, 2)
  else if bool_decide (225 ≤ b0 ≤ 239)%N then Some (128%N, 191%N, 2)
  else if bool_decide (b0 = 240)%N then Some (144%N, 191%N, 3)
  else if bool_decide (241 ≤ b0 ≤ 243)%N then Some (128%N, 191%N, 3)
  else if bool_decide (b0 = 244)%N then Some (128%N, 143%N, 3)
  else None.

Fixpoint all_cont (n : nat) (s : string) : bool :=
  match n with
  | O => true
  | S n =>
    match s with
    | String c r => is_cont c && all_cont n r
    | EmptyString => false
    end
  end.

(** [utf8.DecodeRune] at a byte [c] above 127 followed by [r]: the number
    of bytes after [c] in the well-formed sequence that starts there, or 0
    when the bytes are ill-formed. *)
Definition utf8_tail (c : ascii) (r : string) : nat :=
  match utf8_first (code c), r with
  | Some (lo, hi, n), String c1 r1 =>
    if bool_decide (lo ≤ code c1 ≤ hi)%N && all_cont (n - 1) r1 then n else 0
  | _, _ => 0
  end.

(** The text after the opening quote: the decoded string and what follows
    the closing quote. [skip] is the number of characters of an escape
    sequence that are still to be passed over. *)
Fixpoint unquote (skip : nat) (s : string) : option (string * string) :=
  match s with
  | EmptyString => None
  | String c r =>
    match skip with
    | S skip => unquote skip r
    | O =>
      if bool_decide (code c = 34)%N then Some (EmptyString, r)
      else if bool_decide (code c = 92)%N then
        match r with
        | String e r' =>
          let plain (x : N) :=
            '(t, rest) ← unquote 1 r; Some (String (char x) t, rest) in
          if bool_decide (code e = 34 ∨ code e = 92 ∨ code e = 47)%N then plain (code e)
          else if bool_decide (e = "b"%char) then plain 8%N
          else if bool_decide (e = "f"%char) then plain 12%N
          else if bool_decide (e = "n"%char) then plain 10%N
          else if bool_decide (e = "r"%char) then plain 13%N
          else if bool_decide (e = "t"%char) then plain 9%N
          else if bool_decide (e = "u"%char) then
            match r' with
            | String h1 (String h2 (String h3 (String h4 r''))) =>
              rr ← getu4 h1 h2 h3 h4;
              if is_surrogate rr then
                match next_u4 r'' ≫= decode_surrogates rr with
                | Some dec =>
                  '(t, rest) ← unquote 11 r; Some (encode_rune dec +:+ t, rest)
                | None =>
                  '(t, rest) ← unquote 5 r; Some (encode_rune RuneError +:+ t, rest)
                end
              else '(t, rest) ← unquote 5 r; Some (encode_rune rr +:+ t, rest)
            | _ => None
            end
          else None
        | EmptyString => None
        end
      else if bool_decide (code c < 32)%N then None
      else if bool_decide (code c < 128)%N then
        '(t, rest) ← unquote 0 r; Some (String c t, rest)
      else
        (* coerce to well-formed UTF-8 *)
        match utf8_tail c r with
        | O => '(t, rest) ← unquote 0 r; Some (encode_rune RuneError +:+ t, rest)
        | S n =>
          '(t, rest) ← unquote (S n) r;
          Some (String c (String.substring 0 (S n) r) +:+ t, rest)
        end
    end
  end.

(** *** Numbers *)

Definition is_number_char (c : ascii) : bool :=
  is_digit c || bool_decide (c = "-"%char ∨ c = "+"%char ∨ c = "."%char
                             ∨ c = "e"%char ∨ c = "E"%char).

Fixpoint span (p : ascii → bool) (s : string) : string * string :=
  match s with
  | String c r =>
    if p c then let '(a, b) := span p r in (String c a, b) else (EmptyString, s)
  | EmptyString => (EmptyString, EmptyString)
  end.

Definition starts_with_digit (s : string) : bool :=
  match s with String c _ => is_digit c | EmptyString => false end.

Definition valid_exponent (s : string) : bool :=
  match s with
  | EmptyString => true
  | String c r =>
    if bool_decide (c = "e"%char ∨ c = "E"%char) then
      let r := match r with
               | String x r' => if bool_decide (x = "+"%char ∨ x = "-"%char) then r' else r
               | EmptyString => r
               end in
      starts_with_digit r && bool_decide ((span is_digit r).2 = EmptyString)
    else false
  end.

Definition valid_fraction (s : string) : bool :=
  match s with
  | String "." r => starts_with_digit r && valid_exponent (span is_digit r).2
  | _ => valid_exponent s
  end.

(** The grammar of a JSON number:
    an optional minus, 0 or a digit string not starting with 0, an optional
    fraction, an optional exponent. *)
Definition valid_number (s : string) : bool :=
  let s := match s with String "-" r => r | _ => s end in
  match s with
  | String "0" r => valid_fraction r
  | String c r => is_digit c && valid_fraction (span is_digit r).2
  | EmptyString => false
  end.

(** *** Values *)

Definition expect (lit : string) (v : value) (s : string) : option (value * string) :=
  if String.prefix lit s then Some (v, String.substring (String.length lit)
                                      (String.length s - String.length lit) s)
  else None.

(** The decoder turns down a text whose arrays and objects are nested more
    than this many deep. *)
Definition maxNestingDepth : N := 10000.

(** [parse_value] reads one value with the blanks around it, inside
    [depth] arrays and objects; [parse_elements] and [parse_members] read
    what follows the first element of an array and the first member of an
    object. *)
Fixpoint parse_value (fuel : nat) (depth : N) (s : string) : option (value * string) :=
  match fuel with
  | O => None
  | S fuel =>
    let members_from := fix members_from (n : nat) (s : string)
        : option (list (string * value) * string) :=
      match n with
      | O => None
      | S n =>
        match skip_space s with
        | String q r =>
          if bool_decide (code q = 34)%N then
            '(k, r) ← unquote 0 r;
            match skip_space r with
            | String ":" r =>
              '(v, r) ← parse_value fuel (depth + 1)%N r;
              match r with
              | String "," r => '(ms, r) ← members_from n r; Some ((k, v) :: ms, r)
              | String "}" r => Some ([(k, v)], r)
              | _ => None
              end
            | _ => None
            end
          else None
        | EmptyString => None
        end
      end in
    let elements_from := fix elements_from (n : nat) (s : string)
        : option (list value * string) :=
      match n with
      | O => None
      | S n =>
        '(v, r) ← parse_value fuel (depth + 1)%N s;
        match r with
        | String "," r => '(vs, r) ← elements_from n r; Some (v :: vs, r)
        | String "]" r => Some ([v], r)
        | _ => None
        end
      end in
    '(v, r) ←
      match skip_space s with
      | EmptyString => None
      | String c r =>
        if bool_decide (c = "{"%char) then
          if bool_decide (depth < maxNestingDepth)%N then
            match skip_space r with
            | String "}" r => Some (Object [], r)
            | _ => '(ms, r) ← members_from (String.length r) r; Some (Object ms, r)
            end
          else None
        else if bool_decide (c = "["%char) then
          if bool_decide (depth < maxNestingDepth)%N then
            match skip_space r with
            | String "]" r => Some (Array [], r)
            | _ => '(vs, r) ← elements_from (String.length r) r; Some (Array vs, r)
            end
          else None
        else if bool_decide (code c = 34)%N then
          '(t, r) ← unquote 0 r; Some (Str t, r)
        else if bool_decide (c = "t"%char) then expect "true" (Bool true) (String c r)
        else if bool_decide (c = "f"%char) then expect "false" (Bool false) (String c r)
        else if bool_decide (c = "n"%char) then expect "null" Null (String c r)
        else
          let '(lit, r) := span is_number_char (String c r) in
          if valid_number lit then Some (Number lit, r) else None
      end;
    Some (v, skip_space r)
  end.

(** The whole input is one JSON value. *)
Definition parse (data : bytes) : option value :=
  match parse_value (S (String.length data)) 0 data with
  | Some (v, EmptyString) => Some v
  | _ => None
  end.

(** *** Decoding into a struct *)

Inductive kind : Type := KString | KInt.

(** The value of a struct field. *)
Inductive field : Type := FString (s : string) | FInt (n : Z).

Definition lower (c : ascii) : ascii :=
  if bool_decide (65 ≤ code c ≤ 90)%N then char (code c + 32) else c.

(** The decoder's comparison of an ASCII struct tag with a key under case
    folding: a byte of the key below 128 is compared up to ASCII case, and
    of the runes above 127 only the long s (U+017F, bytes 197 191) and the
    Kelvin sign (U+212A, bytes 226 132 170) fold onto an ASCII letter, s
    and k. *)
Fixpoint equal_fold (tag key : string) : bool :=
  match tag with
  | EmptyString => bool_decide (key = EmptyString)
  | String x tag =>
    match key with
    | EmptyString => false
    | String y key' =>
      if bool_decide (code y < 128)%N
      then bool_decide (lower x = lower y) && equal_fold tag key'
      else
        match key with
        | String "197" (String "191" key'') =>
          bool_decide (lower x = "s"%char) && equal_fold tag key''
        | String "226" (String "132" (String "170" key'')) =>
          bool_decide (lower x = "k"%char) && equal_fold tag key''
        | _ => false
        end
    end
  end.

(** The struct field a JSON key addresses: the one whose tag is the key,
    else the first whose tag is the key under case folding. *)
Definition find_field (schema : list (string * kind)) (key : string)
    : option (string * kind) :=
  match List.find (λ f, bool_decide (f.1 = key)) schema with
  | Some f => Some f
  | None => List.find (λ f, equal_fold f.1 key) schema
  end.

Fixpoint digits_to_Z (acc : Z) (s : string) : option Z :=
  match s with
  | EmptyString => Some acc
  | String c r =>
    if is_digit c then digits_to_Z (10 * acc + Z.of_N (code c - 48)) r else None
  end.

(** [strconv.ParseInt(literal, 10, 64)] on a literal of the JSON grammar. *)
Definition ParseInt (literal : string) : option Z :=
  n ← match literal with
      | String "-" r => Z.opp <$> digits_to_Z 0 r
      | _ => digits_to_Z 0 literal
      end;
  if bool_decide (- 2 ^ 63 ≤ n < 2 ^ 63)%Z then Some n else None.

(** One member of the object: the fields set so far (latest first), and
    whether the member is well typed. *)
Definition decode_member (schema : list (string * kind)) (m : string * value)
    (acc : list (string * field) * bool) : list (string * field) * bool :=
  match find_field schema m.1 with
  | None => acc
  | Some (name, k) =>
    match m.2, k with
    | Null, _ => acc
    | Str s, KString => ((name, FString s) :: acc.1, acc.2)
    | Number literal, KInt =>
      match ParseInt literal with
      | Some n => ((name, FInt n) :: acc.1, acc.2)
      | None => (acc.1, false)
      end
    | _, _ => (acc.1, false)
    end
  end.

(** [json.Unmarshal] into a zero struct with the given tagged fields. *)
Definition decode_struct (schema : list (string * kind)) (data : bytes)
    : result (list (string * field)) :=
  match parse data with
  | None => Err "invalid JSON input"
  | Some Null => Ok []
  | Some (Object members) =>
    let '(fields, well_typed) :=
      fold_left (λ acc m, decode_member schema m acc) members ([], true) in
    if well_typed then Ok fields else Err "json: cannot unmarshal into Go struct field"
  | Some _ => Err "json: cannot unmarshal into Go value"
  end.

Definition lookup_field (name : string) (fields : list (string * field)) : option field :=
  snd <$> List.find (λ f, bool_decide (f.1 = name)) fields.

Definition string_field (name : string) (fields : list (string * field)) : string :=
  match lookup_field name fields with Some (FString s) => s | _ => EmptyString end.

Definition int_field (name : string) (fields : list (string * field)) : Z :=
  match lookup_field name fields with Some (FInt n) => n | _ => 0%Z end.

Definition map_result {A B} (f : A → B) (r : result A) : result B :=
  match r with Ok a => Ok (f a) | Err e => Err e end.

(** *** Encoding *)

Definition hex_char (n : N) : ascii :=
  if bool_decide (n < 10)%N then char (48 + n) else char (87 + n).

(** An ASCII character as backslash, u and four hexadecimal digits. *)
Definition u00 (c : ascii) : string :=
  String "\" (String "u" (String "0" (String "0"
    (String (hex_char (code c / 16)) (String (hex_char (code c mod 16)) EmptyString))))).

(** One byte below 128 as [json.Marshal] writes it, with its escaping of
    quotes, backslashes, control characters and the three characters that
    are special in HTML. *)
Definition escape_ascii (c : ascii) : string :=
  if bool_decide (code c = 34 ∨ code c = 92)%N then String "\" (String c EmptyString)
  else if bool_decide (code c = 10)%N then String "\" (String "n" EmptyString)
  else if bool_decide (code c = 13)%N then String "\" (String "r" EmptyString)
  else if bool_decide (code c = 9)%N then String "\" (String "t" EmptyString)
  else if bool_decide (code c < 32 ∨ code c = 60 ∨ code c = 62 ∨ code c = 38)%N then u00 c
  else String c EmptyString.

(** A well-formed sequence of several bytes as [json.Marshal] writes it:
    as it is, but for the line and paragraph separators U+2028 and U+2029,
    which are written as escapes. *)
Definition escape_rune (bytes_of_rune : string) : string :=
  match bytes_of_rune with
  | String "226" (String "128" (String "168" EmptyString)) => "\u2028"
  | String "226" (String "128" (String "169" EmptyString)) => "\u2029"
  | _ => bytes_of_rune
  end.

(** The body of a JSON string as [json.Marshal] writes it; an ill-formed
    byte is written as the escape of U+FFFD. [skip] is the number of bytes
    of a sequence already written that are still to be passed over. *)
Fixpoint escape_from (skip : nat) (s : string) : string :=
  match s with
  | EmptyString => EmptyString
  | String c r =>
    match skip with
    | S skip => escape_from skip r
    | O =>
      if bool_decide (code c < 128)%N then escape_ascii c +:+ escape_from 0 r
      else
        match utf8_tail c r with
        | O => "\ufffd" +:+ escape_from 0 r
        | S n => escape_rune (String c (String.substring 0 (S n) r)) +:+ escape_from (S n) r
        end
    end
  end.

Definition escape (s : string) : string := escape_from 0 s.

Definition quoted (s : string) : string := dquote +:+ escape s +:+ dquote.

(** A key of the output object: the tag between quotes, and a colon. *)
Definition tag (name : string) : string := dquote +:+ name +:+ dquote +:+ ":".

End JSON.

(** The tagged fields of the structs that are decoded, with the tags of
    main.go. *)
Definition file_schema : list (string * JSON.kind) :=
  [("docType", JSON.KString); ("name", JSON.KString); ("ipfshash", JSON.KString);
   ("timestamp", JSON.KInt); ("owner", JSON.KString)].

Definition fileTransientInput_schema : list (string * JSON.kind) :=
  [("name", JSON.KString); ("ipfshash", JSON.KString); ("size", JSON.KInt);
   ("owner", JSON.KString); ("folio", JSON.KInt)].

Definition fileDeleteTransientInput_schema : list (string * JSON.kind) :=
  [("name", JSON.KString)].

Definition fileTransferTransientInput_schema : list (string * JSON.kind) :=
  [("name", JSON.KString); ("owner", JSON.KString)].

(** The codec at the chaincode's struct types. *)
Definition encoding_json : json.Codec := {|
  json.Marshal_file f :=
    "{" +:+ JSON.tag "docType" +:+ JSON.quoted (file.ObjectType f)
    +:+ "," +:+ JSON.tag "name" +:+ JSON.quoted (file.Name f)
    +:+ "," +:+ JSON.tag "ipfshash" +:+ JSON.quoted (file.IPFShash f)
    +:+ "," +:+ JSON.tag "timestamp" +:+ pretty (file.Timestamp f)
    +:+ "," +:+ JSON.tag "owner" +:+ JSON.quoted (file.Owner f) +:+ "}";
  json.Marshal_filePrivateDetails d :=
    "{" +:+ JSON.tag "docType" +:+ JSON.quoted (filePrivateDetails.ObjectType d)
    +:+ "," +:+ JSON.tag "name" +:+ JSON.quoted (filePrivateDetails.Name d)
    +:+ "," +:+ JSON.tag "folio" +:+ pretty (filePrivateDetails.Folio d) +:+ "}";
  json.Unmarshal_file data :=
    JSON.map_result
      (λ fs, file.mk (JSON.string_field "docType" fs) (JSON.string_field "name" fs)
               (JSON.string_field "ipfshash" fs) (JSON.int_field "timestamp" fs)
               (JSON.string_field "owner" fs))
      (JSON.decode_struct file_schema data);
  json.Unmarshal_fileTransientInput data :=
    JSON.map_result
      (λ fs, fileTransientInput.mk (JSON.string_field "name" fs)
               (JSON.string_field "ipfshash" fs) (JSON.int_field "size" fs)
               (JSON.string_field "owner" fs) (JSON.int_field "folio" fs))
      (JSON.decode_struct fileTransientInput_schema data);
  json.Unmarshal_fileDeleteTransientInput data :=
    JSON.map_result
      (λ fs, fileDeleteTransientInput.mk (JSON.string_field "name" fs))
      (JSON.decode_struct fileDeleteTransientInput_schema data);
  json.Unmarshal_fileTransferTransientInput data :=
    JSON.map_result
      (λ fs, fileTransferTransientInput.mk (JSON.string_field "name" fs)
               (JSON.string_field "owner" fs))
      (JSON.decode_struct fileTransferTransientInput_schema data)
|}.

(** JSON text is written below with apostrophes where the text has double
    quotes; [json_text] puts the double quotes back. *)
Fixpoint json_text (s : string) : string :=
  match s with
  | EmptyString => EmptyString
  | String c r =>
    String (if bool_decide (c = "'"%char) then "034"%char else c) (json_text r)
  end.

(** * Vocabulary of the properties *)

(** ** Assumptions on an invocation *)

(** The side-channel bag hands the non-empty text [data] over under [key]. *)
Definition payload (s : ChaincodeStub) (key : string) (data : bytes) : Prop :=
  fails s Call.GetTransient = None ∧ transient s !! key = Some data
  ∧ data ≠ EmptyString.

(** The validation rules of a create payload. *)
Definition valid_input (i : fileTransientInput.t) : Prop :=
  fileTransientInput.Name i ≠ EmptyString
  ∧ fileTransientInput.IPFShash i ≠ EmptyString
  ∧ (0 < fileTransientInput.Timestamp i)%Z
  ∧ fileTransientInput.Owner i ≠ EmptyString
  ∧ (0 < fileTransientInput.Folio i)%Z.

(** The payload breaks the rule of the field with this JSON key. *)
Definition violates (i : fileTransientInput.t) (field : string) : Prop :=
  (field = "name" ∧ fileTransientInput.Name i = EmptyString)
  ∨ (field = "ipfshash" ∧ fileTransientInput.IPFShash i = EmptyString)
  ∨ (field = "size" ∧ (fileTransientInput.Timestamp i ≤ 0)%Z)
  ∨ (field = "owner" ∧ fileTransientInput.Owner i = EmptyString)
  ∨ (field = "folio" ∧ (fileTransientInput.Folio i ≤ 0)%Z).

(** The two records a create writes, and the key of its index entry. *)
Definition file_of (i : fileTransientInput.t) : file.t :=
  file.mk "file" (fileTransientInput.Name i) (fileTransientInput.IPFShash i)
    (fileTransientInput.Timestamp i) (fileTransientInput.Owner i).

Definition details_of (i : fileTransientInput.t) : filePrivateDetails.t :=
  filePrivateDetails.mk "filePrivateDetails" (fileTransientInput.Name i)
    (fileTransientInput.Folio i).

Definition index_key (hash name : string) : string :=
  stub.compositeKey "ipfshash~name" [hash; name].

Definition sentinel : bytes := String "000"%char EmptyString.

(** The adapter calls of a create whose error the handler looks at. *)
Definition create_calls `{!json.Codec} (i : fileTransientInput.t) : list Call.t :=
  [ Call.GetPrivateData "collectionFiles" (fileTransientInput.Name i);
    Call.PutPrivateData "collectionFiles" (fileTransientInput.Name i)
      (json.Marshal_file (file_of i));
    Call.PutPrivateData "collectionFilePrivateDetails" (fileTransientInput.Name i)
      (json.Marshal_filePrivateDetails (details_of i));
    Call.CreateCompositeKey "ipfshash~name"
      [fileTransientInput.IPFShash i; fileTransientInput.Name i] ].

(** The last call of a create, the write of the index entry. *)
Definition index_put (i : fileTransientInput.t) : Call.t :=
  Call.PutPrivateData "collectionFiles"
    (index_key (fileTransientInput.IPFShash i) (fileTransientInput.Name i)) sentinel.

(** The adapter reports no error on any of the calls [cs]. *)
Definition succeed (s : ChaincodeStub) (cs : list Call.t) : Prop :=
  Forall (λ c, fails s c = None) cs.

(** The shared partition after a create that went through. *)
Definition shared_after_create `{!json.Codec} (s : ChaincodeStub)
    (i : fileTransientInput.t) : gmap string bytes :=
  let written := <[fileTransientInput.Name i := json.Marshal_file (file_of i)]>
                   (collection s "collectionFiles") in
  match fails s (index_put i) with
  | None => <[index_key (fileTransientInput.IPFShash i) (fileTransientInput.Name i)
               := sentinel]> written
  | Some _ => written
  end.

(** The record a transfer writes back. *)
Definition with_owner (f : file.t) (owner : string) : file.t :=
  file.mk (file.ObjectType f) (file.Name f) (file.IPFShash f) (file.Timestamp f) owner.

(** The two adapter calls of a transfer that finds the record [f]. *)
Definition transfer_calls `{!json.Codec} (input : fileTransferTransientInput.t) (f : file.t)
    : list Call.t :=
  [ Call.GetPrivateData "collectionFiles" (fileTransferTransientInput.Name input);
    Call.PutPrivateData "collectionFiles" (file.Name f)
      (json.Marshal_file (with_owner f (fileTransferTransientInput.Owner input))) ].

(** One member of the array of a range query result, written out: between
    braces, the key between quotes under Key, a comma and a blank, and the
    stored value as it is under Record. *)
Definition member_text (entry : string * bytes) : string :=
  json_text "{'Key':'" +:+ entry.1 +:+ json_text "', 'Record':" +:+ entry.2 +:+ "}".

(** The text of a range query result: the members, separated by commas,
    between brackets. *)
Definition members_text (entries : list (string * bytes)) : string :=
  String.concat "," (member_text <$> entries).

Definition array_text (entries : list (string * bytes)) : string :=
  "[" +:+ members_text entries +:+ "]".

(** What the loop of the range query appends to its buffer. *)
Definition appended_text (written : bool) (entries : list (string * bytes)) : string :=
  (if written then match entries with [] => EmptyString | _ => "," end
   else EmptyString) +:+ members_text entries.

(** The entries a range scan lists by the words of the specification: every
    entry of the partition whose key is at or after [startKey] and before
    [endKey], index entries included, by ascending key. *)
Definition claimed_entries (m : gmap string bytes) (startKey endKey : string)
    : list (string * bytes) :=
  merge_sort key_le
    (filter (λ kv, String.le startKey kv.1 ∧ ¬ String.le endKey kv.1) (map_to_list m)).


(** The messages of the readers for an absent key. *)
Definition NotFound_file (name : string) : string :=
  jsonResp_open +:+ "File does not exist: " +:+ name +:+ jsonResp_close.

Definition NotFound_details (name : string) : string :=
  jsonResp_open +:+ "File private details does not exist: " +:+ name +:+ jsonResp_close.

(** ** Scenarios *)

(** The ledger after the delete of f1: both partitions are empty. *)
Definition ledger_f1_deleted : gmap string (gmap string bytes) :=
  {[ "collectionFiles" := ∅; "collectionFilePrivateDetails" := ∅ ]}.

(** An adapter that reports no error. *)
Definition no_failure : Call.t → option string := λ _, None.

(** An adapter that reports an error on every write of the index
    sentinel, and on nothing else. *)
Definition index_write_fails : Call.t → option string := λ c,
  match c with
  | Call.PutPrivateData _ _ value =>
    if bool_decide (value = sentinel) then Some "PUT_STATE failed" else None
  | _ => None
  end.

(** A proposal with a transient map, on a ledger, with a working adapter. *)
Definition proposal (transient : gmap string bytes)
    (ledger : gmap string (gmap string bytes)) : ChaincodeStub :=
  mkStub transient ledger no_failure id [].

(** The create payload of the scenario, with the timestamp under the key
    of the stored record, under the key the handler reads, and at zero. *)
Definition payload_f1 : bytes :=
  json_text "{'name':'f1','ipfshash':'abc123','timestamp':100,'owner':'orgA','folio':7}".

Definition payload_f1_size : bytes :=
  json_text "{'name':'f1','ipfshash':'abc123','size':100,'owner':'orgA','folio':7}".

Definition payload_f1_zero : bytes :=
  json_text "{'name':'f1','ipfshash':'abc123','timestamp':0,'owner':'orgA','folio':7}".

Definition input_f1 : fileTransientInput.t :=
  fileTransientInput.mk "f1" "abc123" 100 "orgA" 7.

Definition transfer_f1 : bytes := json_text "{'name':'f1','owner':'orgB'}".

Definition delete_f1 : bytes := json_text "{'name':'f1'}".

(** The records of f1 as they are stored. *)
Definition record_f1 : bytes :=
  json_text "{'docType':'file','name':'f1','ipfshash':'abc123','timestamp':100,'owner':'orgA'}".

Definition details_f1 : bytes :=
  json_text "{'docType':'filePrivateDetails','name':'f1','folio':7}".

(** The ledger that holds f1, its restricted record and its index entry. *)
Definition ledger_f1 : gmap string (gmap string bytes) :=
  {[ "collectionFiles" := {[ "f1" := record_f1; index_key "abc123" "f1" := sentinel ]};
     "collectionFilePrivateDetails" := {[ "f1" := details_f1 ]} ]}.

(** An adapter that reports the error [err] on every read of a key or of
    its digest, and on nothing else. *)
Definition reads_fail (err : string) : Call.t → option string := λ c,
  match c with
  | Call.GetPrivateData _ _ | Call.GetPrivateDataHash _ _ => Some err
  | _ => None
  end.

(** An adapter that reports the error [err] on the calls picked out by
    [decide_call] and on nothing else. *)
Definition fail_on (decide_call : Call.t → bool) (err : string)
    : Call.t → option string := λ c,
  if decide_call c then Some err else None.

Definition is_restricted_put (c : Call.t) : bool :=
  match c with
  | Call.PutPrivateData coll _ _ => bool_decide (coll = "collectionFilePrivateDetails")
  | _ => false
  end.

Definition is_index_delete (c : Call.t) : bool :=
  match c with
  | Call.DelPrivateData _ key => bool_decide (key = index_key "abc123" "f1")
  | _ => false
  end.

Definition is_next_of (key : string) (c : Call.t) : bool :=
  match c with
  | Call.Next k => bool_decide (k = key)
  | _ => false
  end.

(** A stub with a transient map, on a ledger, with the given adapter
    errors. *)
Definition faulty (transient : gmap string bytes)
    (ledger : gmap string (gmap string bytes)) (fails : Call.t → option string)
    : ChaincodeStub :=
  mkStub transient ledger fails id [].

(** A ledger whose shared partition holds, under the key f1, a record that
    carries the name f2, and under the key f2 some other text. *)
Definition record_f2_named : bytes :=
  json_text "{'docType':'file','name':'f2','ipfshash':'abc123','timestamp':100,'owner':'orgA'}".

Definition ledger_misnamed : gmap string (gmap string bytes) :=
  {[ "collectionFiles" := {[ "f1" := record_f2_named; "f2" := "other" ]} ]}.

(** A ledger that holds three plain entries in its shared partition. *)
Definition ledger_abc : gmap string (gmap string bytes) :=
  {[ "collectionFiles" := {[ "a" := "1"; "b" := "2"; "c" := "3" ]} ]}.

(** * Properties *)

(** ** Strings and keys *)

Lemma string_app_cons (c : ascii) (a b : string) :
  String c a +:+ b = String c (a +:+ b).
Proof. done. Qed.

Lemma string_length_app (a b : string) :
  String.length (a +:+ b) = String.length a + String.length b.
Proof.
  induction a as [|c a IH]; [done|].
  rewrite string_app_cons. cbn [String.length]. by rewrite IH.
Qed.

Lemma string_app_assoc (a b c : string) : (a +:+ b) +:+ c = a +:+ (b +:+ c).
Proof.
  induction a as [|x a IH]; [done|]. by rewrite !string_app_cons, IH.
Qed.

Lemma string_app_nil_r (a : string) : a +:+ EmptyString = a.
Proof.
  induction a as [|x a IH]; [done|]. by rewrite string_app_cons, IH.
Qed.

Lemma length_zero_empty (a : string) : String.length a = 0 ↔ a = EmptyString.
Proof. by destruct a. Qed.

Lemma nonempty_length (a : string) :
  a ≠ EmptyString → bool_decide (String.length a = 0) = false.
Proof. intros Ha. apply bool_decide_eq_false_2. by rewrite length_zero_empty. Qed.

(** The index key of a record is longer than the record's name, so it is
    never the key under which the record itself is stored. *)
Lemma compositeKey_ne_name (indexName hash name : string) :
  stub.compositeKey indexName [hash; name] ≠ name.
Proof.
  intros Heq. apply (f_equal String.length) in Heq. revert Heq.
  unfold stub.compositeKey. cbn [foldr].
  rewrite !string_length_app. cbn [String.length]. lia.
Qed.

(** ** Running the stub's operations *)

Lemma collection_log c s name : collection (log c s) name = collection s name.
Proof. done. Qed.

Lemma collection_set_eq name m s : collection (set_collection name m s) name = m.
Proof. unfold collection, set_collection. cbn. by rewrite lookup_insert_eq. Qed.

Lemma collection_set_ne name name' m s :
  name ≠ name' → collection (set_collection name m s) name' = collection s name'.
Proof. intros Hne. unfold collection, set_collection. cbn. by rewrite lookup_insert_ne. Qed.

Lemma collection_ext s s' name :
  collections s = collections s' → collection s name = collection s' name.
Proof. unfold collection. by intros ->. Qed.

(** Settle an equation between closed terms, maps included, by deciding
    it. *)
Ltac by_compute := apply (bool_decide_unpack _); vm_compute; exact I.

(** Unfold a handler applied to a stub, and follow it as far as the
    hypotheses on the oracle, the transient map and the codec tell. *)
Ltac tx_unfold :=
  unfold run, initFile, readFile, readFilePrivateDetails, transferFile, delete,
    getFilesByRange, try, when, Return,
    stub.GetTransient, stub.GetPrivateData, stub.PutPrivateData, stub.DelPrivateData,
    stub.CreateCompositeKey, stub.GetPrivateDataByRange, stub.GetPrivateDataHash,
    stub.Next, stub.call;
  unfold mbind, mret, Tx_mbind, Tx_mret, Tx_bind, Tx_ret.

Ltac tx_cbn :=
  cbn [log fails transient digest calls fst snd length
       fileTransientInput.Name fileTransientInput.IPFShash fileTransientInput.Timestamp
       fileTransientInput.Owner fileTransientInput.Folio
       fileDeleteTransientInput.Name fileTransferTransientInput.Name
       fileTransferTransientInput.Owner
       file.ObjectType file.Name file.IPFShash file.Timestamp file.Owner].

Ltac tx_rw :=
  match goal with
  | |- context [fails (set_collection ?n ?m ?s)] =>
      change (fails (set_collection n m s)) with (fails s)
  | |- context [transient (set_collection ?n ?m ?s)] =>
      change (transient (set_collection n m s)) with (transient s)
  | H : fails ?s ?c = _ |- context [fails ?s ?c] => rewrite H
  | H : transient ?s !! ?k = _ |- context [transient ?s !! ?k] => rewrite H
  | H : ?f ?b = Ok _ |- context [?f ?b] => rewrite H
  | H : ?f ?b = Err _ |- context [?f ?b] => rewrite H
  | H : ?a ≠ EmptyString |- context [bool_decide (String.length ?a = 0)] =>
      rewrite (nonempty_length a H)
  | |- context [collection (log ?c ?s) ?n] =>
      change (collection (log c s) n) with (collection s n)
  | |- context [collection (set_collection ?n ?m ?s) ?n] =>
      rewrite (collection_set_eq n m s)
  | |- context [collection (set_collection ?n ?m ?s) ?n'] =>
      rewrite (collection_set_ne n n' m s) by done
  | H : collection ?s ?n !! ?k = _ |- context [collection ?s ?n !! ?k] => rewrite H
  | |- context [bool_decide (Some ?v ≠ None)] =>
      rewrite (bool_decide_eq_true_2 (Some v ≠ None)) by done
  | |- context [bool_decide (@None ?A ≠ None)] =>
      rewrite (bool_decide_eq_false_2 (@None A ≠ None)) by (by intros [])
  | |- context [bool_decide (0 ≠ 0)] => rewrite (bool_decide_eq_false_2 (0 ≠ 0)) by lia
  | |- context [bool_decide (?x < ?y)] =>
      first [ rewrite (bool_decide_eq_false_2 (x < y)) by lia
            | rewrite (bool_decide_eq_true_2 (x < y)) by lia ]
  | |- context [bool_decide (?x ≤ 0)%Z] =>
      first [ rewrite (bool_decide_eq_false_2 (x ≤ 0)%Z) by lia
            | rewrite (bool_decide_eq_true_2 (x ≤ 0)%Z) by lia ]
  end.

Ltac tx_run := tx_unfold; repeat (tx_cbn; tx_rw); tx_cbn.

(** ** Dispatch *)

Section Dispatch.
Context `{!json.Codec}.

(** The dispatcher hands the arguments to the handler of the function
    name, and turns down any other name. *)
Lemma Invoke_dispatch (args : list string) :
  Invoke "initFile" args = initFile args
  ∧ Invoke "readFile" args = readFile args
  ∧ Invoke "readFilePrivateDetails" args = readFilePrivateDetails args
  ∧ Invoke "transferFile" args = transferFile args
  ∧ Invoke "delete" args = delete args
  ∧ Invoke "getFilesByRange" args = getFilesByRange args
  ∧ Invoke "getFileHash" args = getFileHash args
  ∧ Invoke "getFilePrivateDetailsHash" args = getFilePrivateDetailsHash args.
Proof. by repeat split. Qed.

(** X1: a function name that is none of the eight names of the dispatcher
    is answered with the message on an unknown function, and the stub is
    not called. *)
Lemma Invoke_unknown (function : string) (args : list string) (s : ChaincodeStub) :
  function ∉ ["initFile"; "readFile"; "readFilePrivateDetails"; "transferFile"; "delete";
              "getFilesByRange"; "getFileHash"; "getFilePrivateDetailsHash"] →
  run (Invoke function args) s
  = (shim.Error "Received unknown function invocation", s).
Proof.
  intros Hnot. unfold Invoke.
  repeat (rewrite bool_decide_eq_false_2; [|intros ->; apply Hnot; set_solver]).
  done.
Qed.

End Dispatch.

(** ** Create *)

Section Create.
Context `{!json.Codec}.
Implicit Types (s : ChaincodeStub) (input : fileTransientInput.t).

(** A payload that breaks a validation rule is turned down with a message
    that starts with the JSON key of a field whose rule it breaks, and the
    stub has only been asked for the transient map. *)
Lemma initFile_validation s data input :
  payload s "file" data →
  json.Unmarshal_fileTransientInput data = Ok input →
  ¬ valid_input input →
  ∃ field : string,
    violates input field
    ∧ run (initFile []) s
      = (shim.Error (field +:+ (if bool_decide (field = "size" ∨ field = "folio")
                                then " field must be a positive integer"
                                else " field must be a non-empty string")),
         log Call.GetTransient s).
Proof.
  intros (Ht & Hd & Hne) Hin Hbad. unfold violates. tx_run.
  destruct (decide (fileTransientInput.Name input = EmptyString)) as [Hn|Hn].
  { exists "name". rewrite Hn. split; [by left | done]. }
  tx_run.
  destruct (decide (fileTransientInput.IPFShash input = EmptyString)) as [Hh|Hh].
  { exists "ipfshash". rewrite Hh. split; [by right; left | done]. }
  tx_run.
  destruct (decide (fileTransientInput.Timestamp input ≤ 0)%Z) as [Hts|Hts].
  { tx_run. exists "size". split; [by right; right; left | done]. }
  tx_run.
  destruct (decide (fileTransientInput.Owner input = EmptyString)) as [Ho|Ho].
  { exists "owner". rewrite Ho. split; [by right; right; right; left | done]. }
  tx_run.
  destruct (decide (fileTransientInput.Folio input ≤ 0)%Z) as [Hf|Hf].
  { tx_run. exists "folio". split; [by right; right; right; right | done]. }
  destruct Hbad. unfold valid_input. repeat split; [done..|lia|done|lia].
Qed.

(** C7: a create whose payload has a timestamp that is not positive, and a
    name and a hash, is turned down before any call on the ledger, and the
    message it answers names the field size, not the timestamp. *)
Theorem create_nonpositive_timestamp_message s data input :
  payload s "file" data →
  json.Unmarshal_fileTransientInput data = Ok input →
  fileTransientInput.Name input ≠ EmptyString →
  fileTransientInput.IPFShash input ≠ EmptyString →
  (fileTransientInput.Timestamp input ≤ 0)%Z →
  run (initFile []) s
  = (shim.Error "size field must be a positive integer", log Call.GetTransient s).
Proof. intros (Ht & Hd & Hne) Hin Hn Hh Hts. by tx_run. Qed.

(** What a create that meets no error (other than, possibly, on its last
    write) leaves behind. *)
Lemma initFile_succeeds s data input :
  payload s "file" data →
  json.Unmarshal_fileTransientInput data = Ok input →
  valid_input input →
  collection s "collectionFiles" !! fileTransientInput.Name input = None →
  succeed s (create_calls input) →
  ∃ s', run (initFile []) s = (shim.Success None, s')
    ∧ collection s' "collectionFiles" = shared_after_create s input
    ∧ collection s' "collectionFilePrivateDetails"
      = <[fileTransientInput.Name input := json.Marshal_filePrivateDetails (details_of input)]>
          (collection s "collectionFilePrivateDetails")
    ∧ ∀ c, c ≠ "collectionFiles" → c ≠ "collectionFilePrivateDetails" →
           collection s' c = collection s c.
Proof.
  intros (Ht & Hd & Hne) Hin (Hn & Hh & Hts & Ho & Hf) Hfree Hok.
  unfold succeed, create_calls in Hok.
  apply Forall_cons in Hok as [Hget Hok]. apply Forall_cons in Hok as [Hput1 Hok].
  apply Forall_cons in Hok as [Hput2 Hok]. apply Forall_cons in Hok as [Hkey _].
  unfold file_of, details_of in *. unfold shared_after_create, index_put, index_key.
  tx_run. unfold sentinel, file_of.
  destruct (fails s (Call.PutPrivateData _ (stub.compositeKey _ _) _)) as [err|] eqn:Hidx;
    tx_run; (eexists; split; [reflexivity|]); repeat (tx_cbn; tx_rw);
    (split; [done|]); (split; [done|]); intros c Hc1 Hc2; by repeat (tx_cbn; tx_rw).
Qed.

(** A create that reports success went through all its checks. *)
Lemma initFile_success_inv s data input r s' :
  payload s "file" data →
  json.Unmarshal_fileTransientInput data = Ok input →
  run (initFile []) s = (shim.Success r, s') →
  valid_input input
  ∧ collection s "collectionFiles" !! fileTransientInput.Name input = None
  ∧ succeed s (create_calls input).
Proof.
  intros Hp Hin Hrun.
  destruct (decide (valid_input input)) as [Hv|Hv]; last first.
  { destruct (initFile_validation s data input Hp Hin Hv) as (f & _ & Hr).
    rewrite Hr in Hrun. discriminate. }
  split; [done|].
  destruct Hp as (Ht & Hd & Hne). destruct Hv as (Hn & Hh & Hts & Ho & Hf).
  revert Hrun. unfold succeed, create_calls, file_of, details_of. tx_run.
  destruct (fails s (Call.GetPrivateData _ _)) as [err|] eqn:Hget; [done|].
  destruct (collection s "collectionFiles" !! _) as [v|] eqn:Hfree; tx_run; [done|].
  destruct (fails s (Call.PutPrivateData "collectionFiles" _ _)) as [err|] eqn:Hput1;
    [done|].
  tx_run.
  destruct (fails s (Call.PutPrivateData "collectionFilePrivateDetails" _ _))
    as [err|] eqn:Hput2; [done|].
  tx_run.
  destruct (fails s (Call.CreateCompositeKey _ _)) as [err|] eqn:Hkey; [done|].
  intros _. split; [done|]. by repeat constructor.
Qed.

(** C6 (uniqueness, I4): a create whose name is already a key of the shared
    partition is turned down with the message that the file already
    exists; the stub has only been asked for the transient map and for that
    key, and every partition is as it was. *)
Theorem create_existing_name_rejected s data input value :
  payload s "file" data →
  json.Unmarshal_fileTransientInput data = Ok input →
  valid_input input →
  fails s (Call.GetPrivateData "collectionFiles" (fileTransientInput.Name input)) = None →
  collection s "collectionFiles" !! fileTransientInput.Name input = Some value →
  ∃ s',
    run (initFile []) s
    = (shim.Error ("This file already exists: " +:+ fileTransientInput.Name input), s')
    ∧ collections s' = collections s
    ∧ calls s' = Call.GetPrivateData "collectionFiles" (fileTransientInput.Name input)
                 :: Call.GetTransient :: calls s.
Proof.
  intros (Ht & Hd & Hne) Hin (Hn & Hh & Hts & Ho & Hf) Hget Hv.
  tx_run. eauto.
Qed.

(** C2: when the adapter reports an error on the write of the index entry,
    the third write of a create, and on no earlier call, the create issues
    that write and still answers success: the error is dropped. *)
Theorem create_index_write_error_dropped s data input err :
  payload s "file" data →
  json.Unmarshal_fileTransientInput data = Ok input →
  valid_input input →
  collection s "collectionFiles" !! fileTransientInput.Name input = None →
  succeed s (create_calls input) →
  fails s (index_put input) = Some err →
  ∃ s', run (initFile []) s = (shim.Success None, s')
    ∧ index_put input ∈ calls s'.
Proof.
  intros Hp Hin Hv Hfree Hok Hidx.
  destruct (initFile_succeeds s data input Hp Hin Hv Hfree Hok) as (s' & Hrun & _).
  exists s'. split; [done|].
  destruct Hp as (Ht & Hd & Hne). destruct Hv as (Hn & Hh & Hts & Ho & Hf).
  unfold succeed, create_calls in Hok.
  apply Forall_cons in Hok as [Hget Hok]. apply Forall_cons in Hok as [Hput1 Hok].
  apply Forall_cons in Hok as [Hput2 Hok]. apply Forall_cons in Hok as [Hkey _].
  revert Hrun Hidx. unfold index_put, index_key, sentinel, file_of, details_of in *.
  tx_run. intros Hrun Hidx. rewrite Hidx in Hrun. injection Hrun as <-.
  cbn [calls log]. set_solver.
Qed.

(** C3 (index consistency, I2): when the adapter reports an error on the
    write of the index entry, and on no earlier call, the create answers
    success and leaves the record of the name in the shared partition with
    no index entry for its hash and name. *)
Theorem create_success_without_index_entry s data input err :
  payload s "file" data →
  json.Unmarshal_fileTransientInput data = Ok input →
  valid_input input →
  collection s "collectionFiles" !! fileTransientInput.Name input = None →
  collection s "collectionFiles"
    !! index_key (fileTransientInput.IPFShash input) (fileTransientInput.Name input) = None →
  succeed s (create_calls input) →
  fails s (index_put input) = Some err →
  ∃ s', run (initFile []) s = (shim.Success None, s')
    ∧ collection s' "collectionFiles" !! fileTransientInput.Name input
      = Some (json.Marshal_file (file_of input))
    ∧ collection s' "collectionFiles"
        !! index_key (fileTransientInput.IPFShash input) (fileTransientInput.Name input)
      = None.
Proof.
  intros Hp Hin Hv Hfree Hnoidx Hok Hidx.
  destruct (initFile_succeeds s data input Hp Hin Hv Hfree Hok)
    as (s' & Hrun & Hshared & _).
  exists s'. split; [done|]. rewrite Hshared. unfold shared_after_create.
  rewrite Hidx. split; [by rewrite lookup_insert_eq|].
  rewrite lookup_insert_ne; [done|].
  intros Heq. by apply (compositeKey_ne_name "ipfshash~name"
    (fileTransientInput.IPFShash input) (fileTransientInput.Name input)).
Qed.

(** The errors of the first two writes of a create are answered. *)
Lemma create_record_write_errors_reported s data input err :
  payload s "file" data →
  json.Unmarshal_fileTransientInput data = Ok input →
  valid_input input →
  collection s "collectionFiles" !! fileTransientInput.Name input = None →
  fails s (Call.GetPrivateData "collectionFiles" (fileTransientInput.Name input)) = None →
  (fails s (Call.PutPrivateData "collectionFiles" (fileTransientInput.Name input)
              (json.Marshal_file (file_of input))) = Some err →
   (run (initFile []) s).1 = shim.Error err)
  ∧ (fails s (Call.PutPrivateData "collectionFiles" (fileTransientInput.Name input)
                (json.Marshal_file (file_of input))) = None →
     fails s (Call.PutPrivateData "collectionFilePrivateDetails"
                (fileTransientInput.Name input)
                (json.Marshal_filePrivateDetails (details_of input))) = Some err →
     (run (initFile []) s).1 = shim.Error err).
Proof.
  intros (Ht & Hd & Hne) Hin (Hn & Hh & Hts & Ho & Hf) Hfree Hget.
  unfold file_of, details_of. split.
  - intros Hput1. by tx_run.
  - intros Hput1 Hput2. by tx_run.
Qed.

(** When the write of the index entry goes through, a create that answers
    success leaves both the record and its index entry. *)
Lemma create_success_with_index_entry s data input r s' :
  payload s "file" data →
  json.Unmarshal_fileTransientInput data = Ok input →
  fails s (index_put input) = None →
  run (initFile []) s = (shim.Success r, s') →
  collection s' "collectionFiles" !! fileTransientInput.Name input
  = Some (json.Marshal_file (file_of input))
  ∧ collection s' "collectionFiles"
      !! index_key (fileTransientInput.IPFShash input) (fileTransientInput.Name input)
    = Some sentinel.
Proof.
  intros Hp Hin Hidx Hrun.
  destruct (initFile_success_inv s data input r s' Hp Hin Hrun) as (Hv & Hfree & Hok).
  destruct (initFile_succeeds s data input Hp Hin Hv Hfree Hok)
    as (s'' & Hrun' & Hshared & _).
  rewrite Hrun in Hrun'. injection Hrun' as _ ->.
  rewrite Hshared. unfold shared_after_create. rewrite Hidx.
  split; [|by rewrite lookup_insert_eq].
  rewrite lookup_insert_ne, lookup_insert_eq; [done|].
  apply compositeKey_ne_name.
Qed.

End Create.

(** ** Read *)

Section Read.
Context `{!json.Codec}.
Implicit Types (s : ChaincodeStub).

(** What the two readers answer, by the content of the partition. *)
Lemma readFile_run s name :
  fails s (Call.GetPrivateData "collectionFiles" name) = None →
  (run (readFile [name]) s).1
  = match collection s "collectionFiles" !! name with
    | Some valAsbytes => shim.Success (Some valAsbytes)
    | None => shim.Error (NotFound_file name)
    end.
Proof. intros Hget. tx_run. by destruct (collection s _ !! name). Qed.

Lemma readFilePrivateDetails_run s name :
  fails s (Call.GetPrivateData "collectionFilePrivateDetails" name) = None →
  (run (readFilePrivateDetails [name]) s).1
  = match collection s "collectionFilePrivateDetails" !! name with
    | Some valAsbytes => shim.Success (Some valAsbytes)
    | None => shim.Error (NotFound_details name)
    end.
Proof. intros Hget. tx_run. by destruct (collection s _ !! name). Qed.

End Read.

(** ** Delete *)

Section Delete.
Context `{!json.Codec}.
Implicit Types (s : ChaincodeStub) (input : fileDeleteTransientInput.t).

(** A delete that answers success found the record of the name, and has
    removed the key of the name and the index key computed from the record
    from the shared partition, and the key of the name from the restricted
    one. *)
Lemma delete_success_inv s data input r s' :
  payload s "file_delete" data →
  json.Unmarshal_fileDeleteTransientInput data = Ok input →
  run (delete []) s = (shim.Success r, s') →
  ∃ value fileToDelete,
    collection s "collectionFiles" !! fileDeleteTransientInput.Name input = Some value
    ∧ json.Unmarshal_file value = Ok fileToDelete
    ∧ collection s' "collectionFiles"
      = base.delete (index_key (file.IPFShash fileToDelete) (file.Name fileToDelete))
          (base.delete (fileDeleteTransientInput.Name input) (collection s "collectionFiles"))
    ∧ collection s' "collectionFilePrivateDetails"
      = base.delete (fileDeleteTransientInput.Name input)
          (collection s "collectionFilePrivateDetails")
    ∧ ∀ c, c ≠ "collectionFiles" → c ≠ "collectionFilePrivateDetails" →
           collection s' c = collection s c.
Proof.
  intros (Ht & Hd & Hne) Hin. unfold index_key. tx_run.
  destruct (decide (fileDeleteTransientInput.Name input = EmptyString)) as [Hn|Hn].
  { by rewrite Hn. }
  tx_run.
  destruct (fails s (Call.GetPrivateData _ _)) as [err|] eqn:Hget; tx_run; [done|].
  destruct (collection s "collectionFiles" !! _) as [value|] eqn:Hv; tx_run; [|done].
  destruct (json.Unmarshal_file value) as [f|err] eqn:Hf; tx_run; [|done].
  destruct (fails s (Call.DelPrivateData "collectionFiles"
              (fileDeleteTransientInput.Name input))) as [err|] eqn:Hdel1; tx_run; [done|].
  destruct (fails s (Call.CreateCompositeKey _ _)) as [err|] eqn:Hkey; tx_run; [done|].
  destruct (fails s (Call.DelPrivateData "collectionFiles" (stub.compositeKey _ _)))
    as [err|] eqn:Hdel2; tx_run; [done|].
  destruct (fails s (Call.DelPrivateData "collectionFilePrivateDetails" _))
    as [err|] eqn:Hdel3; tx_run; [done|].
  intros [= <- <-]. exists value, f. repeat (tx_cbn; tx_rw).
  repeat split; try done. intros c Hc1 Hc2. by repeat (tx_cbn; tx_rw).
Qed.

(** X13: after a delete that answers success the name is a key of neither
    partition, and the index key of the record that was stored under the
    name is not a key of the shared partition. *)
Lemma delete_removes_record_and_index s data input r s' :
  payload s "file_delete" data →
  json.Unmarshal_fileDeleteTransientInput data = Ok input →
  run (delete []) s = (shim.Success r, s') →
  ∃ value fileToDelete,
    collection s "collectionFiles" !! fileDeleteTransientInput.Name input = Some value
    ∧ json.Unmarshal_file value = Ok fileToDelete
    ∧ collection s' "collectionFiles" !! fileDeleteTransientInput.Name input = None
    ∧ collection s' "collectionFiles"
        !! index_key (file.IPFShash fileToDelete) (file.Name fileToDelete) = None
    ∧ collection s' "collectionFilePrivateDetails"
        !! fileDeleteTransientInput.Name input = None.
Proof.
  intros Hp Hin Hrun.
  destruct (delete_success_inv s data input r s' Hp Hin Hrun)
    as (value & f & Hv & Hf & Hshared & Hdetails & _).
  exists value, f. rewrite Hshared, Hdetails, !lookup_delete_eq.
  repeat split; try done.
  destruct (decide (index_key (file.IPFShash f) (file.Name f)
                    = fileDeleteTransientInput.Name input)) as [->|Hne].
  - by rewrite lookup_delete_eq.
  - by rewrite lookup_delete_ne, lookup_delete_eq.
Qed.

End Delete.

(** ** Co-lifecycle *)

Section Lifecycle.
Context `{!json.Codec}.

(** C4 (co-lifecycle, I1): after a create of a name that answers success,
    both readers, run on the ledger the create left, answer success with
    the shared and the restricted record of the name; after a delete of a
    name that answers success, both readers answer that the name does not
    exist. The readers are run on any stub with the same partitions whose
    adapter reports no error on their read. *)
Theorem co_lifecycle :
  (∀ s data input r s' s2,
     payload s "file" data →
     json.Unmarshal_fileTransientInput data = Ok input →
     run (initFile []) s = (shim.Success r, s') →
     collections s2 = collections s' →
     fails s2 (Call.GetPrivateData "collectionFiles" (fileTransientInput.Name input)) = None →
     fails s2 (Call.GetPrivateData "collectionFilePrivateDetails"
                 (fileTransientInput.Name input)) = None →
     (run (readFile [fileTransientInput.Name input]) s2).1
     = shim.Success (Some (json.Marshal_file (file_of input)))
     ∧ (run (readFilePrivateDetails [fileTransientInput.Name input]) s2).1
       = shim.Success (Some (json.Marshal_filePrivateDetails (details_of input))))
  ∧ (∀ s data input r s' s2,
     payload s "file_delete" data →
     json.Unmarshal_fileDeleteTransientInput data = Ok input →
     run (delete []) s = (shim.Success r, s') →
     collections s2 = collections s' →
     fails s2 (Call.GetPrivateData "collectionFiles"
                 (fileDeleteTransientInput.Name input)) = None →
     fails s2 (Call.GetPrivateData "collectionFilePrivateDetails"
                 (fileDeleteTransientInput.Name input)) = None →
     (run (readFile [fileDeleteTransientInput.Name input]) s2).1
     = shim.Error (NotFound_file (fileDeleteTransientInput.Name input))
     ∧ (run (readFilePrivateDetails [fileDeleteTransientInput.Name input]) s2).1
       = shim.Error (NotFound_details (fileDeleteTransientInput.Name input))).
Proof.
  split.
  - intros s data input r s' s2 Hp Hin Hrun Hsame Hget1 Hget2.
    destruct (initFile_success_inv s data input r s' Hp Hin Hrun) as (Hv & Hfree & Hok).
    destruct (initFile_succeeds s data input Hp Hin Hv Hfree Hok)
      as (s'' & Hrun' & Hshared & Hdetails & _).
    rewrite Hrun in Hrun'. injection Hrun' as _ <-.
    rewrite readFile_run, readFilePrivateDetails_run by done.
    rewrite !(collection_ext s2 s') by done. rewrite Hshared, Hdetails.
    rewrite lookup_insert_eq. split; [|done].
    unfold shared_after_create. destruct (fails s (index_put input)).
    + by rewrite lookup_insert_eq.
    + rewrite lookup_insert_ne; [by rewrite lookup_insert_eq|].
      apply compositeKey_ne_name.
  - intros s data input r s' s2 Hp Hin Hrun Hsame Hget1 Hget2.
    destruct (delete_success_inv s data input r s' Hp Hin Hrun)
      as (value & f & _ & _ & Hshared & Hdetails & _).
    rewrite readFile_run, readFilePrivateDetails_run by done.
    rewrite !(collection_ext s2 s') by done. rewrite Hshared, Hdetails.
    rewrite lookup_delete_eq.
    destruct (decide (index_key (file.IPFShash f) (file.Name f)
                      = fileDeleteTransientInput.Name input)) as [->|Hne].
    + by rewrite lookup_delete_eq.
    + by rewrite lookup_delete_ne, lookup_delete_eq.
Qed.

End Lifecycle.

(** ** Transfer *)

Section Transfer.
Context `{!json.Codec}.
Implicit Types (s : ChaincodeStub) (input : fileTransferTransientInput.t).

(** A transfer that finds a record and meets no error writes the record
    back, with the new owner, under the name the record carries. *)
Lemma transferFile_succeeds s data input value f :
  payload s "file_owner" data →
  json.Unmarshal_fileTransferTransientInput data = Ok input →
  fileTransferTransientInput.Name input ≠ EmptyString →
  fileTransferTransientInput.Owner input ≠ EmptyString →
  collection s "collectionFiles" !! fileTransferTransientInput.Name input = Some value →
  json.Unmarshal_file value = Ok f →
  succeed s (transfer_calls input f) →
  ∃ s', run (transferFile []) s = (shim.Success None, s')
    ∧ transient s' = transient s ∧ fails s' = fails s
    ∧ collections s'
      = <["collectionFiles" :=
            <[file.Name f := json.Marshal_file
                               (with_owner f (fileTransferTransientInput.Owner input))]>
              (collection s "collectionFiles")]> (collections s)
    ∧ calls s'
      = Call.PutPrivateData "collectionFiles" (file.Name f)
          (json.Marshal_file (with_owner f (fileTransferTransientInput.Owner input)))
        :: Call.GetPrivateData "collectionFiles" (fileTransferTransientInput.Name input)
        :: Call.GetTransient :: calls s.
Proof.
  intros (Ht & Hd & Hne) Hin Hn Ho Hv Hf Hok.
  unfold succeed, transfer_calls, with_owner in *.
  apply Forall_cons in Hok as [Hget Hok]. apply Forall_cons in Hok as [Hput _].
  tx_run. eexists. split; [reflexivity|]. done.
Qed.

(** A transfer that answers success met no error. *)
Lemma transferFile_success_inv s data input value f r s' :
  payload s "file_owner" data →
  json.Unmarshal_fileTransferTransientInput data = Ok input →
  collection s "collectionFiles" !! fileTransferTransientInput.Name input = Some value →
  json.Unmarshal_file value = Ok f →
  run (transferFile []) s = (shim.Success r, s') →
  fileTransferTransientInput.Name input ≠ EmptyString
  ∧ fileTransferTransientInput.Owner input ≠ EmptyString
  ∧ succeed s (transfer_calls input f).
Proof.
  intros (Ht & Hd & Hne) Hin Hv Hf. unfold succeed, transfer_calls, with_owner. tx_run.
  destruct (decide (fileTransferTransientInput.Name input = EmptyString)) as [Hn|Hn].
  { by rewrite Hn. }
  tx_run.
  destruct (decide (fileTransferTransientInput.Owner input = EmptyString)) as [Ho|Ho].
  { by rewrite Ho. }
  tx_run.
  destruct (fails s (Call.GetPrivateData _ _)) as [err|] eqn:Hget; tx_run; [done|].
  destruct (fails s (Call.PutPrivateData _ _ _)) as [err|] eqn:Hput; tx_run; [done|].
  intros _. repeat split; try done. by repeat constructor.
Qed.

(** C5 (owner-only mutation, I3): a transfer that answers success on the
    record stored under a name replaces that record by one with the same
    kind, name, content hash and timestamp and the owner of the payload;
    every other key of the shared partition, among them the index entry of
    the record, and every other partition, among them the restricted one,
    are as before. *)
Theorem transfer_changes_owner_only s data input value f r s' :
  payload s "file_owner" data →
  json.Unmarshal_fileTransferTransientInput data = Ok input →
  collection s "collectionFiles" !! fileTransferTransientInput.Name input = Some value →
  json.Unmarshal_file value = Ok f →
  file.Name f = fileTransferTransientInput.Name input →
  run (transferFile []) s = (shim.Success r, s') →
  ∃ f',
    collection s' "collectionFiles" !! fileTransferTransientInput.Name input
    = Some (json.Marshal_file f')
    ∧ file.Owner f' = fileTransferTransientInput.Owner input
    ∧ file.ObjectType f' = file.ObjectType f
    ∧ file.Name f' = file.Name f
    ∧ file.IPFShash f' = file.IPFShash f
    ∧ file.Timestamp f' = file.Timestamp f
    ∧ (∀ key, key ≠ fileTransferTransientInput.Name input →
         collection s' "collectionFiles" !! key = collection s "collectionFiles" !! key)
    ∧ collection s' "collectionFiles" !! index_key (file.IPFShash f) (file.Name f)
      = collection s "collectionFiles" !! index_key (file.IPFShash f) (file.Name f)
    ∧ collection s' "collectionFilePrivateDetails"
      = collection s "collectionFilePrivateDetails"
    ∧ (∀ c, c ≠ "collectionFiles" → collection s' c = collection s c).
Proof.
  intros Hp Hin Hv Hf Hname Hrun.
  destruct (transferFile_success_inv s data input value f r s' Hp Hin Hv Hf Hrun)
    as (Hn & Ho & Hok).
  destruct (transferFile_succeeds s data input value f Hp Hin Hn Ho Hv Hf Hok)
    as (s'' & Hrun' & _ & _ & Hcs & _).
  rewrite Hrun in Hrun'. injection Hrun' as _ <-.
  assert (Hshared : collection s' "collectionFiles"
    = <[file.Name f := json.Marshal_file
          (with_owner f (fileTransferTransientInput.Owner input))]>
        (collection s "collectionFiles")).
  { unfold collection at 1. by rewrite Hcs, lookup_insert_eq. }
  assert (Hother : ∀ c, c ≠ "collectionFiles" → collection s' c = collection s c).
  { intros c Hc. unfold collection. by rewrite Hcs, lookup_insert_ne. }
  exists (with_owner f (fileTransferTransientInput.Owner input)).
  rewrite Hshared, Hname. rewrite lookup_insert_eq.
  repeat split; try done.
  - intros key Hkey. by rewrite lookup_insert_ne.
  - rewrite lookup_insert_ne; [done|]. rewrite <- Hname. intros Heq.
    by apply (compositeKey_ne_name "ipfshash~name" (file.IPFShash f) (file.Name f)).
  - by apply Hother.
Qed.

(** C10: a transfer to a non-empty owner of the record stored under a name,
    run twice in a row with no adapter error, answers success both times;
    the second run writes, under the same key, the record the first run
    wrote, and leaves every partition as the first run left it. The record
    written by the first run is assumed to decode to itself. *)
Theorem transfer_twice_same_ledger s data input value f :
  payload s "file_owner" data →
  json.Unmarshal_fileTransferTransientInput data = Ok input →
  fileTransferTransientInput.Name input ≠ EmptyString →
  fileTransferTransientInput.Owner input ≠ EmptyString →
  collection s "collectionFiles" !! fileTransferTransientInput.Name input = Some value →
  json.Unmarshal_file value = Ok f →
  file.Name f = fileTransferTransientInput.Name input →
  json.Unmarshal_file
    (json.Marshal_file (with_owner f (fileTransferTransientInput.Owner input)))
  = Ok (with_owner f (fileTransferTransientInput.Owner input)) →
  succeed s (transfer_calls input f) →
  ∃ s1 s2,
    run (transferFile []) s = (shim.Success None, s1)
    ∧ run (transferFile []) s1 = (shim.Success None, s2)
    ∧ collections s2 = collections s1
    ∧ collection s1 "collectionFiles" !! fileTransferTransientInput.Name input
      = Some (json.Marshal_file (with_owner f (fileTransferTransientInput.Owner input)))
    ∧ calls s2
      = Call.PutPrivateData "collectionFiles" (fileTransferTransientInput.Name input)
          (json.Marshal_file (with_owner f (fileTransferTransientInput.Owner input)))
        :: Call.GetPrivateData "collectionFiles" (fileTransferTransientInput.Name input)
        :: Call.GetTransient :: calls s1.
Proof.
  intros Hp Hin Hn Ho Hv Hf Hname Hround Hok.
  destruct (transferFile_succeeds s data input value f Hp Hin Hn Ho Hv Hf Hok)
    as (s1 & Hrun1 & Ht1 & Hf1 & Hcs1 & _).
  set (g := with_owner f (fileTransferTransientInput.Owner input)) in *.
  assert (Hshared1 : collection s1 "collectionFiles"
    = <[file.Name f := json.Marshal_file g]> (collection s "collectionFiles")).
  { unfold collection at 1. by rewrite Hcs1, lookup_insert_eq. }
  assert (Hv1 : collection s1 "collectionFiles" !! fileTransferTransientInput.Name input
                = Some (json.Marshal_file g)).
  { by rewrite Hshared1, Hname, lookup_insert_eq. }
  assert (Hg : with_owner g (fileTransferTransientInput.Owner input) = g) by done.
  destruct (transferFile_succeeds s1 data input (json.Marshal_file g) g)
    as (s2 & Hrun2 & _ & _ & Hcs2 & Hcalls2); try done.
  { destruct Hp as (Ht & Hd & Hne). unfold payload. by rewrite Hf1, Ht1. }
  { unfold succeed, transfer_calls. rewrite Hg, Hf1. apply Hok. }
  exists s1, s2. repeat split; try done.
  - rewrite Hcs2, Hg, Hshared1. change (file.Name g) with (file.Name f).
    rewrite insert_insert_eq. rewrite Hcs1. by rewrite insert_insert_eq.
  - rewrite Hcalls2, Hg. change (file.Name g) with (file.Name f). by rewrite Hname.
Qed.

End Transfer.

(** ** Range scan *)

Global Instance key_le_trans : Transitive key_le.
Proof. intros a b c. unfold key_le. apply transitivity. Qed.

Global Instance key_le_total : Total key_le.
Proof. intros a b. unfold key_le. apply total, _. Qed.

(** The iterator yields exactly the entries of the map whose key is in the
    range. *)
Lemma range_entries_elem (m : gmap string bytes) (startKey endKey k : string) (v : bytes) :
  (k, v) ∈ range_entries m startKey endKey
  ↔ m !! k = Some v ∧ String.le startKey k
    ∧ (endKey = EmptyString ∨ ¬ String.le endKey k).
Proof.
  unfold range_entries. rewrite merge_sort_Permutation.
  rewrite list_elem_of_filter, elem_of_map_to_list. unfold in_range. cbn.
  rewrite andb_true_iff, orb_true_iff, negb_true_iff, !bool_decide_eq_true,
    bool_decide_eq_false.
  tauto.
Qed.



(** No key is below the empty key. *)
Lemma string_le_empty (k : string) : String.le EmptyString k.
Proof. by destruct k. Qed.

(** A key at or after a key that starts with a byte other than zero is not
    empty and does not start with a zero byte. *)
Lemma string_le_starts_with_zero (c : ascii) (r k : string) :
  c ≠ "000"%char → String.le (String c r) k →
  k ≠ EmptyString ∧ starts_with_zero k = false.
Proof.
  intros Hc Hle. destruct k as [|c' k]; [done|]. split; [done|].
  cbn. apply bool_decide_eq_false. intros ->.
  unfold String.le, String.leb in Hle. cbn [String.compare] in Hle.
  destruct (Ascii.compare c "000") eqn:Hcmp; [| |done].
  - by apply Ascii.compare_eq_iff in Hcmp.
  - unfold Ascii.compare in Hcmp. change (N_of_ascii "000") with 0%N in Hcmp.
    by destruct (N_of_ascii c).
Qed.

(** A key that is not empty and does not start with a zero byte is at or
    after the key the shim stands in for the empty start key. *)
Lemma string_le_emptyKeySubstitute (k : string) :
  String.le emptyKeySubstitute k ↔ k ≠ EmptyString ∧ starts_with_zero k = false.
Proof.
  split; [by apply string_le_starts_with_zero|].
  intros [Hne Hz]. destruct k as [|c k]; [done|].
  cbn in Hz. apply bool_decide_eq_false in Hz.
  unfold String.le, String.leb, emptyKeySubstitute. cbn [String.compare].
  destruct (Ascii.compare "001" c) eqn:Hcmp; [by destruct k|done|].
  exfalso. apply Hz. rewrite <- (ascii_N_embedding c).
  unfold Ascii.compare in Hcmp. change (N_of_ascii "001") with 1%N in Hcmp.
  apply N.compare_gt_iff in Hcmp. by replace (N_of_ascii c) with 0%N by lia.
Qed.

(** The start key the ledger is asked with bounds the same keys as the
    start key of the query, the empty key and the keys that start with a
    zero byte apart. *)
Lemma substitute_empty_le (startKey k : string) :
  starts_with_zero startKey = false →
  String.le (substitute_empty startKey) k
  ↔ String.le startKey k ∧ k ≠ EmptyString ∧ starts_with_zero k = false.
Proof.
  intros Hz. unfold substitute_empty. case_bool_decide as Hs.
  - subst. rewrite string_le_emptyKeySubstitute.
    pose proof (string_le_empty k). tauto.
  - destruct startKey as [|c r]; [done|].
    cbn in Hz. apply bool_decide_eq_false in Hz.
    pose proof (string_le_starts_with_zero c r k Hz). tauto.
Qed.

(** The shim hands out an iterator exactly when neither key starts with a
    zero byte. *)
Lemma range_iterator_Ok (m : gmap string bytes) (startKey endKey : string)
    (entries : list (string * bytes)) :
  range_iterator m startKey endKey = Ok entries
  ↔ starts_with_zero startKey = false ∧ starts_with_zero endKey = false
    ∧ entries = range_entries m (substitute_empty startKey) endKey.
Proof.
  unfold range_iterator. cbn [validateSimpleKeys].
  assert (Hs : starts_with_zero (substitute_empty startKey) = starts_with_zero startKey).
  { unfold substitute_empty. case_bool_decide; by subst. }
  rewrite Hs. destruct (starts_with_zero startKey), (starts_with_zero endKey);
    split; try done; try (by intros (? & ? & ?)).
  - by intros [= <-].
  - by intros (_ & _ & ->).
Qed.

(** A composite key starts with a zero byte. *)
Lemma compositeKey_starts_with_zero (objectType : string) (attributes : list string) :
  starts_with_zero (stub.compositeKey objectType attributes) = true.
Proof. done. Qed.

(** The format of the handler's array members is the one written out. *)
Lemma Sprintf_member_text (e : string * bytes) : Sprintf_member e = member_text e.
Proof. reflexivity. Qed.

Lemma members_text_cons (e : string * bytes) (entries : list (string * bytes)) :
  members_text (e :: entries) = member_text e +:+ appended_text true entries.
Proof.
  unfold appended_text, members_text. destruct entries as [|e' entries]; cbn.
  - by rewrite string_app_nil_r.
  - done.
Qed.

(** A run whose response is known is the pair of that response and of the
    stub it leaves. *)
Lemma run_response (h : Tx shim.Response) (s : ChaincodeStub) (r : shim.Response) :
  (run h s).1 = r → run h s = (r, (run h s).2).
Proof. destruct (run h s). cbn. by intros ->. Qed.

(** The partitions of a stub built on a ledger are that ledger. *)
Lemma collections_mkStub (transient : gmap string bytes)
    (ledger : gmap string (gmap string bytes)) (fails : Call.t → option string)
    (digest : bytes → bytes) (calls : list Call.t) :
  collections (mkStub transient ledger fails digest calls) = ledger.
Proof. reflexivity. Qed.

Section Range.
Context `{!json.Codec}.
Implicit Types (s : ChaincodeStub).

(** The loop either appends the text of all entries to the buffer, the
    adapter reporting no error on any step of the iterator, or returns the
    error of the first step that reports one. It writes nothing. *)
Lemma getFilesByRange_loop_run (entries : list (string * bytes)) :
  ∀ (written : bool) (buffer : string) s,
    match getFilesByRange_loop entries written buffer s with
    | (s', inl text) =>
      text = buffer +:+ appended_text written entries
      ∧ Forall (λ e, fails s (Call.Next e.1) = None) entries
    | (s', inr r) =>
      (∃ err, r = shim.Error err)
      ∧ Exists (λ e, fails s (Call.Next e.1) ≠ None) entries
    end
    ∧ collections (getFilesByRange_loop entries written buffer s).1 = collections s.
Proof.
  induction entries as [|e entries IH]; intros written buffer s.
  - cbn. unfold appended_text, members_text. cbn.
    by destruct written; rewrite !string_app_nil_r.
  - cbn [getFilesByRange_loop]. tx_run.
    destruct (fails s (Call.Next e.1)) as [err|] eqn:Hnext; tx_run.
    { split; [|done]. split; [by eexists|]. apply Exists_cons_hd. by rewrite Hnext. }
    specialize (IH true ((if written then buffer +:+ "," else buffer) +:+ Sprintf_member e)
                  (log (Call.Next e.1) s)).
    destruct (getFilesByRange_loop entries true _ _) as [s' [text|r]];
      destruct IH as [IH Hcs]; (split; [|done]); destruct IH as [IH1 IH2].
    + split; [|by constructor].
      rewrite IH1. unfold appended_text at 2. rewrite members_text_cons, Sprintf_member_text.
      destruct written; by rewrite !string_app_assoc.
    + split; [done|]. by apply Exists_cons_tl.
Qed.

(** With fewer than two arguments the range query answers the message on
    the number of arguments, and the stub has not been called. *)
Lemma getFilesByRange_too_few_arguments s args :
  length args < 2 →
  run (getFilesByRange args) s
  = (shim.Error "Incorrect number of arguments. Expecting 2", s).
Proof.
  intros Hlen. tx_unfold. rewrite bool_decide_eq_true_2 by done. done.
Qed.

(** The range query with two arguments, step by step: the error of the
    adapter on the query, else the error of the shim's check of the keys,
    else the loop over the iterator. *)
Lemma getFilesByRange_query s (startKey endKey : string) :
  run (getFilesByRange [startKey; endKey]) s
  = let s1 := log (Call.GetPrivateDataByRange "collectionFiles" startKey endKey) s in
    match fails s (Call.GetPrivateDataByRange "collectionFiles" startKey endKey) with
    | Some err => (shim.Error err, s1)
    | None =>
      match range_iterator (collection s "collectionFiles") startKey endKey with
      | Err err => (shim.Error err, s1)
      | Ok entries =>
        match getFilesByRange_loop entries false "[" s1 with
        | (s', inl buffer) => (shim.Success (Some (buffer +:+ "]")), s')
        | (s', inr r) => (r, s')
        end
      end
    end.
Proof.
  tx_run. destruct (fails s _); [done|]. tx_run.
  destruct (range_iterator _ _ _) as [entries|err]; [|done].
  by destruct (getFilesByRange_loop entries false "[" _) as [s' [buffer|r]].
Qed.

(** C8: the range query looks at its first two arguments only: with more
    than two arguments it does what it does with the first two, so an
    argument count above two is not turned down. *)
Theorem getFilesByRange_extra_arguments_ignored s startKey endKey extra :
  run (getFilesByRange (startKey :: endKey :: extra)) s
  = run (getFilesByRange [startKey; endKey]) s.
Proof.
  tx_unfold. cbn [length].
  rewrite !bool_decide_eq_false_2 by lia. done.
Qed.


End Range.

(** ** The create payload on the executable codec *)

Section InputKeys.
Local Existing Instance encoding_json.

(** A key addresses the timestamp field only when it is the word size
    under the decoder's case folding. *)
Lemma find_field_size (key name : string) (k : JSON.kind) :
  JSON.find_field fileTransientInput_schema key = Some (name, k) →
  name = "size" → JSON.equal_fold "size" key = true.
Proof.
  unfold JSON.find_field, fileTransientInput_schema. cbn [List.find fst].
  repeat case_bool_decide; subst; try (intros [= <- <-]; done).
  destruct (JSON.equal_fold "name" key); [intros [= <- <-]; done|].
  destruct (JSON.equal_fold "ipfshash" key); [intros [= <- <-]; done|].
  destruct (JSON.equal_fold "size" key); [done|].
  destruct (JSON.equal_fold "owner" key); [intros [= <- <-]; done|].
  destruct (JSON.equal_fold "folio" key); [intros [= <- <-]; done|].
  done.
Qed.

Lemma lookup_field_cons_ne (name name' : string) (v : JSON.field)
    (fields : list (string * JSON.field)) :
  name' ≠ name →
  JSON.lookup_field name ((name', v) :: fields) = JSON.lookup_field name fields.
Proof.
  intros Hne. unfold JSON.lookup_field. cbn [List.find fst].
  by rewrite bool_decide_eq_false_2.
Qed.

(** Members none of whose keys is the word size under the decoder's case
    folding leave the timestamp field unset. *)
Lemma decode_members_no_size (members : list (string * JSON.value)) :
  Forall (λ m, JSON.equal_fold "size" m.1 = false) members →
  ∀ acc : list (string * JSON.field) * bool,
    JSON.lookup_field "size" acc.1 = None →
    JSON.lookup_field "size"
      (fold_left (λ acc m, JSON.decode_member fileTransientInput_schema m acc)
         members acc).1 = None.
Proof.
  induction 1 as [|m members Hm _ IH]; intros acc Hacc; [done|].
  cbn [fold_left]. apply IH. unfold JSON.decode_member.
  destruct (JSON.find_field fileTransientInput_schema m.1) as [[name k]|] eqn:Hfind;
    [|done].
  assert (Hname : name ≠ "size").
  { intros ->. apply find_field_size in Hfind; [|done]. congruence. }
  destruct m.2 as [|b|literal|t|elements|ms]; destruct k; try done; cbn [fst].
  - destruct (JSON.ParseInt literal); [|done]. cbn [fst]. by rewrite lookup_field_cons_ne.
  - by rewrite lookup_field_cons_ne.
Qed.

(** A payload that is a JSON object with no key that folds onto size
    decodes, when it decodes, to an input whose timestamp is zero. *)
Lemma Unmarshal_no_size_key (data : bytes) (members : list (string * JSON.value))
    (input : fileTransientInput.t) :
  JSON.parse data = Some (JSON.Object members) →
  Forall (λ m, JSON.equal_fold "size" m.1 = false) members →
  json.Unmarshal_fileTransientInput data = Ok input →
  fileTransientInput.Timestamp input = 0%Z.
Proof.
  intros Hparse Hkeys. cbn [json.Unmarshal_fileTransientInput encoding_json].
  unfold JSON.decode_struct. rewrite Hparse.
  pose proof (decode_members_no_size members Hkeys ([], true) eq_refl) as Hsize.
  destruct (fold_left _ members _) as [fields well_typed]. cbn [fst] in Hsize.
  destruct well_typed; [|done]. cbn [JSON.map_result]. intros [= <-].
  cbn [fileTransientInput.Timestamp]. unfold JSON.int_field. by rewrite Hsize.
Qed.

(** C1: a create whose payload is a JSON object none of whose keys is the
    word size under the decoder's case folding (ASCII letters up to case,
    the long s for s), whatever it carries under the key timestamp, is
    turned down with nothing written; when its name and hash are given,
    the message is that of a timestamp that is not positive. The handler
    reads the timestamp of the payload from the key size, not from the key
    of the stored record. *)
Theorem create_timestamp_key_not_read s data members :
  payload s "file" data →
  JSON.parse data = Some (JSON.Object members) →
  Forall (λ m, JSON.equal_fold "size" m.1 = false) members →
  ∃ message,
    run (initFile []) s = (shim.Error message, log Call.GetTransient s)
    ∧ ∀ input, json.Unmarshal_fileTransientInput data = Ok input →
        fileTransientInput.Timestamp input = 0%Z
        ∧ (fileTransientInput.Name input ≠ EmptyString →
           fileTransientInput.IPFShash input ≠ EmptyString →
           message = "size field must be a positive integer").
Proof.
  intros Hp Hparse Hkeys.
  destruct (json.Unmarshal_fileTransientInput data) as [input|err] eqn:Hin.
  - pose proof (Unmarshal_no_size_key data members input Hparse Hkeys Hin) as Hts.
    destruct (initFile_validation s data input Hp Hin) as (field & _ & Hrun).
    { unfold valid_input. lia. }
    eexists. split; [exact Hrun|]. intros input' [= <-]. split; [done|].
    intros Hn Hh. revert Hrun. destruct Hp as (Ht & Hd & Hne). tx_run.
    by intros [= ->].
  - destruct Hp as (Ht & Hd & Hne). tx_run. eexists. split; [done|]. by intros input.
Qed.

End InputKeys.

(** ** The scenarios, run on the executable codec *)

Section Scenarios.
Local Existing Instance encoding_json.

(** The create of the scenario, whose payload carries the timestamp 100
    under the key of the stored record, is turned down as if it had no
    timestamp, and nothing is written. *)
Lemma create_scenario_timestamp_not_read :
  run (initFile []) (proposal {[ "file" := payload_f1 ]} ∅)
  = (shim.Error "size field must be a positive integer",
     log Call.GetTransient (proposal {[ "file" := payload_f1 ]} ∅)).
Proof. vm_compute. reflexivity. Qed.

(** With the timestamp under the key size the scenario goes through: the
    create answers success and leaves the ledger of f1, and the readers
    answer the two records. *)
Lemma create_scenario_size_key :
  (run (initFile []) (proposal {[ "file" := payload_f1_size ]} ∅)).1 = shim.Success None
  ∧ collections (run (initFile []) (proposal {[ "file" := payload_f1_size ]} ∅)).2 = ledger_f1
  ∧ (run (readFile ["f1"]) (proposal ∅ ledger_f1)).1 = shim.Success (Some record_f1)
  ∧ (run (readFilePrivateDetails ["f1"]) (proposal ∅ ledger_f1)).1
    = shim.Success (Some details_f1).
Proof.
  repeat split; first [by_compute | vm_compute; reflexivity].
Qed.

Lemma payload_proposal (transient : gmap string bytes)
    (ledger : gmap string (gmap string bytes)) (key : string) (data : bytes) :
  transient !! key = Some data → data ≠ EmptyString →
  payload (proposal transient ledger) key data.
Proof. by intros Hd Hne. Qed.

(** The create of the scenario, with the timestamp 100 under the key
    timestamp. *)
Lemma create_timestamp_key_not_read_witness :
  ∃ message,
    run (initFile []) (proposal {[ "file" := payload_f1 ]} ∅)
    = (shim.Error message, log Call.GetTransient (proposal {[ "file" := payload_f1 ]} ∅))
    ∧ ∀ input, json.Unmarshal_fileTransientInput payload_f1 = Ok input →
        fileTransientInput.Timestamp input = 0%Z
        ∧ (fileTransientInput.Name input ≠ EmptyString →
           fileTransientInput.IPFShash input ≠ EmptyString →
           message = "size field must be a positive integer").
Proof.
  apply (create_timestamp_key_not_read (proposal {[ "file" := payload_f1 ]} ∅) payload_f1
           [("name", JSON.Str "f1"); ("ipfshash", JSON.Str "abc123");
            ("timestamp", JSON.Number "100"); ("owner", JSON.Str "orgA");
            ("folio", JSON.Number "7")]).
  - by apply payload_proposal.
  - vm_compute. reflexivity.
  - by repeat constructor.
Defined.

(** A second create of f1 on the ledger that holds f1. *)
Lemma create_existing_name_rejected_witness :
  ∃ s',
    run (initFile []) (proposal {[ "file" := payload_f1_size ]} ledger_f1)
    = (shim.Error ("This file already exists: " +:+ "f1"), s')
    ∧ collections s' = ledger_f1
    ∧ calls s' = [Call.GetPrivateData "collectionFiles" "f1"; Call.GetTransient].
Proof.
  apply (create_existing_name_rejected
           (proposal {[ "file" := payload_f1_size ]} ledger_f1)
           payload_f1_size input_f1 record_f1).
  - by apply payload_proposal.
  - vm_compute. reflexivity.
  - unfold valid_input. cbn. repeat split; (done || lia).
  - reflexivity.
  - vm_compute. reflexivity.
Defined.

(** The create of f1 on an empty ledger whose adapter reports an error on
    the write of the index entry. *)
Lemma create_index_write_error_dropped_witness :
  ∃ s',
    run (initFile [])
      (mkStub {[ "file" := payload_f1_size ]} ∅ index_write_fails id [])
    = (shim.Success None, s')
    ∧ index_put input_f1 ∈ calls s'.
Proof.
  apply (create_index_write_error_dropped
           (mkStub {[ "file" := payload_f1_size ]} ∅ index_write_fails id [])
           payload_f1_size input_f1 "PUT_STATE failed").
  - by repeat split.
  - vm_compute. reflexivity.
  - unfold valid_input. cbn. repeat split; (done || lia).
  - vm_compute. reflexivity.
  - unfold succeed, create_calls. by repeat constructor.
  - vm_compute. reflexivity.
Defined.

(** After that create, the record of f1 is read and its index entry is not
    there. *)
Lemma create_success_without_index_entry_witness :
  ∃ s',
    run (initFile [])
      (mkStub {[ "file" := payload_f1_size ]} ∅ index_write_fails id [])
    = (shim.Success None, s')
    ∧ collection s' "collectionFiles" !! "f1" = Some (json.Marshal_file (file_of input_f1))
    ∧ collection s' "collectionFiles" !! index_key "abc123" "f1" = None.
Proof.
  apply (create_success_without_index_entry
           (mkStub {[ "file" := payload_f1_size ]} ∅ index_write_fails id [])
           payload_f1_size input_f1 "PUT_STATE failed").
  - by repeat split.
  - vm_compute. reflexivity.
  - unfold valid_input. cbn. repeat split; (done || lia).
  - vm_compute. reflexivity.
  - vm_compute. reflexivity.
  - unfold succeed, create_calls. by repeat constructor.
  - vm_compute. reflexivity.
Defined.

(** The create of the scenario with the timestamp at zero. *)
Lemma create_nonpositive_timestamp_message_witness :
  run (initFile []) (proposal {[ "file" := payload_f1_zero ]} ∅)
  = (shim.Error "size field must be a positive integer",
     log Call.GetTransient (proposal {[ "file" := payload_f1_zero ]} ∅)).
Proof.
  apply (create_nonpositive_timestamp_message
           (proposal {[ "file" := payload_f1_zero ]} ∅) payload_f1_zero
           (fileTransientInput.mk "f1" "abc123" 0 "orgA" 7)).
  - by apply payload_proposal.
  - vm_compute. reflexivity.
  - done.
  - done.
  - cbn. lia.
Defined.

(** The readers after the create of f1, and after its delete. *)
Lemma co_lifecycle_witness :
  ((run (readFile ["f1"]) (proposal ∅ ledger_f1)).1
   = shim.Success (Some (json.Marshal_file (file_of input_f1)))
   ∧ (run (readFilePrivateDetails ["f1"]) (proposal ∅ ledger_f1)).1
     = shim.Success (Some (json.Marshal_filePrivateDetails (details_of input_f1))))
  ∧ ((run (readFile ["f1"]) (proposal ∅ ledger_f1_deleted)).1
     = shim.Error (NotFound_file "f1")
     ∧ (run (readFilePrivateDetails ["f1"]) (proposal ∅ ledger_f1_deleted)).1
       = shim.Error (NotFound_details "f1")).
Proof.
  split.
  - apply (proj1 co_lifecycle (proposal {[ "file" := payload_f1_size ]} ∅)
             payload_f1_size input_f1 None
             (run (initFile []) (proposal {[ "file" := payload_f1_size ]} ∅)).2).
    + by apply payload_proposal.
    + vm_compute. reflexivity.
    + vm_compute. reflexivity.
    + vm_compute. reflexivity.
    + reflexivity.
    + reflexivity.
  - apply (proj2 co_lifecycle (proposal {[ "file_delete" := delete_f1 ]} ledger_f1)
             delete_f1 (fileDeleteTransientInput.mk "f1") None
             (run (delete []) (proposal {[ "file_delete" := delete_f1 ]} ledger_f1)).2).
    + by apply payload_proposal.
    + vm_compute. reflexivity.
    + vm_compute. reflexivity.
    + vm_compute. reflexivity.
    + reflexivity.
    + reflexivity.
Defined.

(** The transfer of f1 to orgB on the ledger that holds f1. *)
Lemma transfer_changes_owner_only_witness :
  ∃ f',
    collection (run (transferFile []) (proposal {[ "file_owner" := transfer_f1 ]} ledger_f1)).2
      "collectionFiles" !! "f1" = Some (json.Marshal_file f')
    ∧ file.Owner f' = "orgB"
    ∧ file.ObjectType f' = "file"
    ∧ file.Name f' = "f1"
    ∧ file.IPFShash f' = "abc123"
    ∧ file.Timestamp f' = 100%Z
    ∧ (∀ key, key ≠ "f1" →
         collection (run (transferFile [])
                       (proposal {[ "file_owner" := transfer_f1 ]} ledger_f1)).2
           "collectionFiles" !! key
         = collection (proposal {[ "file_owner" := transfer_f1 ]} ledger_f1)
             "collectionFiles" !! key)
    ∧ collection (run (transferFile [])
                    (proposal {[ "file_owner" := transfer_f1 ]} ledger_f1)).2
        "collectionFiles" !! index_key "abc123" "f1"
      = collection (proposal {[ "file_owner" := transfer_f1 ]} ledger_f1)
          "collectionFiles" !! index_key "abc123" "f1"
    ∧ collection (run (transferFile [])
                    (proposal {[ "file_owner" := transfer_f1 ]} ledger_f1)).2
        "collectionFilePrivateDetails"
      = collection (proposal {[ "file_owner" := transfer_f1 ]} ledger_f1)
          "collectionFilePrivateDetails"
    ∧ (∀ c, c ≠ "collectionFiles" →
         collection (run (transferFile [])
                       (proposal {[ "file_owner" := transfer_f1 ]} ledger_f1)).2 c
         = collection (proposal {[ "file_owner" := transfer_f1 ]} ledger_f1) c).
Proof.
  apply (transfer_changes_owner_only
           (proposal {[ "file_owner" := transfer_f1 ]} ledger_f1) transfer_f1
           (fileTransferTransientInput.mk "f1" "orgB") record_f1 (file_of input_f1) None).
  - by apply payload_proposal.
  - vm_compute. reflexivity.
  - vm_compute. reflexivity.
  - vm_compute. reflexivity.
  - reflexivity.
  - vm_compute. reflexivity.
Defined.

(** The transfer of f1 to orgB, twice. *)
Lemma transfer_twice_same_ledger_witness :
  ∃ s1 s2,
    run (transferFile []) (proposal {[ "file_owner" := transfer_f1 ]} ledger_f1)
    = (shim.Success None, s1)
    ∧ run (transferFile []) s1 = (shim.Success None, s2)
    ∧ collections s2 = collections s1
    ∧ collection s1 "collectionFiles" !! "f1"
      = Some (json.Marshal_file (with_owner (file_of input_f1) "orgB"))
    ∧ calls s2
      = Call.PutPrivateData "collectionFiles" "f1"
          (json.Marshal_file (with_owner (file_of input_f1) "orgB"))
        :: Call.GetPrivateData "collectionFiles" "f1" :: Call.GetTransient :: calls s1.
Proof.
  apply (transfer_twice_same_ledger
           (proposal {[ "file_owner" := transfer_f1 ]} ledger_f1) transfer_f1
           (fileTransferTransientInput.mk "f1" "orgB") record_f1 (file_of input_f1)).
  - by apply payload_proposal.
  - vm_compute. reflexivity.
  - done.
  - done.
  - vm_compute. reflexivity.
  - vm_compute. reflexivity.
  - reflexivity.
  - vm_compute. reflexivity.
  - unfold succeed, transfer_calls. by repeat constructor.
Defined.

(** A range query with three arguments on the ledger that holds f1 answers
    the entries between the first two. *)
Lemma range_scan_three_arguments :
  (run (getFilesByRange ["a"; "z"; "extra"]) (proposal ∅ ledger_f1)).1
  = shim.Success (Some (array_text [("f1", record_f1)])).
Proof. vm_compute. reflexivity. Qed.

(** A range query from the empty key on the ledger that holds f1 answers
    the record alone: the index entry, whose key starts with a zero byte,
    is left out. The text of the answer is written out in full. *)
Lemma range_scan_leaves_index_entry_out :
  (run (getFilesByRange [EmptyString; "z"]) (proposal ∅ ledger_f1)).1
  = shim.Success (Some (json_text
      "[{'Key':'f1', 'Record':{'docType':'file','name':'f1','ipfshash':'abc123','timestamp':100,'owner':'orgA'}}]"))
  ∧ claimed_entries (collection (proposal ∅ ledger_f1) "collectionFiles") EmptyString "z"
    = [(index_key "abc123" "f1", sentinel); ("f1", record_f1)].
Proof. split; vm_compute; reflexivity. Qed.

(** With an empty end key the range has no upper bound. *)
Lemma range_scan_empty_end_key :
  (run (getFilesByRange ["a"; EmptyString]) (proposal ∅ ledger_abc)).1
  = shim.Success (Some (json_text
      "[{'Key':'a', 'Record':1},{'Key':'b', 'Record':2},{'Key':'c', 'Record':3}]")).
Proof. vm_compute. reflexivity. Qed.

(** A range query over the index keys of the hash abc123, from the key of
    the empty name to the key of the name made of the byte 255, is turned
    down by the shim, the ledger not being read. *)
Lemma range_scan_over_index_refused :
  (run (getFilesByRange [index_key "abc123" EmptyString;
                         index_key "abc123" (String "255"%char EmptyString)])
     (proposal ∅ ledger_f1)).1
  = shim.Error ("first character of the key [" +:+ index_key "abc123" EmptyString
                +:+ "] contains a null character which is not allowed").
Proof. vm_compute. reflexivity. Qed.


(** The create whose payload carries the timestamp under the key made of
    the long s (U+017F) and the letters ize goes through: the decoder folds
    the long s onto s. *)
Lemma create_scenario_long_s_key :
  (run (initFile [])
     (proposal {[ "file" := json_text "{'name':'f1','ipfshash':'abc123','"
                             +:+ String "197"%char (String "191"%char "ize")
                             +:+ json_text "':100,'owner':'orgA','folio':7}" ]} ∅)).1
  = shim.Success None
  ∧ collections
      (run (initFile [])
         (proposal {[ "file" := json_text "{'name':'f1','ipfshash':'abc123','"
                                 +:+ String "197"%char (String "191"%char "ize")
                                 +:+ json_text "':100,'owner':'orgA','folio':7}" ]} ∅)).2
    = ledger_f1.
Proof. split; first [by_compute | vm_compute; reflexivity]. Qed.

End Scenarios.


(** * Further properties of the handlers *)

(** ** Calls that are turned down at the door *)

Section Door.
Context `{!json.Codec}.
Implicit Types (s : ChaincodeStub).

(** X2: the three handlers that take their input from the transient map
    turn down any positional argument, each with its message on the number
    of arguments, and do not call the stub. *)
Theorem transient_handlers_reject_arguments s (args : list string) :
  args ≠ [] →
  run (initFile args) s
  = (shim.Error "Incorrect number of arguments. Private file data must be passed in transient map.", s)
  ∧ run (delete args) s
    = (shim.Error "Incorrect number of arguments. Private file name must be passed in transient map.", s)
  ∧ run (transferFile args) s
    = (shim.Error "Incorrect number of arguments. Private file data must be passed in transient map.", s).
Proof.
  intros Hargs. destruct args as [|a args]; [done|].
  tx_unfold. cbn [length]. rewrite !bool_decide_eq_true_2 by lia. done.
Qed.

(** X3: the four readers turn down every number of arguments other than
    one, all with the same message, and do not call the stub. *)
Theorem readers_reject_argument_count s (args : list string) :
  length args ≠ 1 →
  run (readFile args) s
  = (shim.Error "Incorrect number of arguments. Expecting name of the file to query", s)
  ∧ run (readFilePrivateDetails args) s
    = (shim.Error "Incorrect number of arguments. Expecting name of the file to query", s)
  ∧ run (getFileHash args) s
    = (shim.Error "Incorrect number of arguments. Expecting name of the file to query", s)
  ∧ run (getFilePrivateDetailsHash args) s
    = (shim.Error "Incorrect number of arguments. Expecting name of the file to query", s).
Proof.
  intros Hlen. by destruct args as [|a [|b args]].
Qed.

End Door.

(** ** The queries *)

Section Queries.
Context `{!json.Codec}.
Implicit Types (s : ChaincodeStub).

(** X4: the four readers and the range query change no partition, whatever
    their arguments and whatever the adapter reports. *)
Theorem queries_leave_ledger_unchanged s (args : list string) :
  collections (run (readFile args) s).2 = collections s
  ∧ collections (run (readFilePrivateDetails args) s).2 = collections s
  ∧ collections (run (getFileHash args) s).2 = collections s
  ∧ collections (run (getFilePrivateDetailsHash args) s).2 = collections s
  ∧ collections (run (getFilesByRange args) s).2 = collections s.
Proof.
  repeat split.
  1-4: destruct args as [|name [|b args]]; [done| |done];
       unfold getFileHash, getFilePrivateDetailsHash; tx_run;
       destruct (fails s _); [done|]; by destruct (collection s _ !! name).
  destruct args as [|startKey [|endKey args]]; [done..|].
  tx_run. destruct (fails s _); [done|]. tx_run.
  destruct (range_iterator _ _ _) as [entries|err]; [|done].
  pose proof (getFilesByRange_loop_run entries false "["
                (log (Call.GetPrivateDataByRange "collectionFiles" startKey endKey) s))
    as [_ Hcs].
  by destruct (getFilesByRange_loop _ false "[" _) as [s' [text|r]].
Qed.

(** X5: on a ledger whose adapter reports no error, the digest reader of a
    partition answers the digest of what the reader of that partition
    answers for the same name, and answers that the hash does not exist
    when the reader answers that the name does not exist. *)
Theorem digest_readers_follow_readers s (name : string) :
  succeed s [ Call.GetPrivateData "collectionFiles" name;
              Call.GetPrivateDataHash "collectionFiles" name;
              Call.GetPrivateData "collectionFilePrivateDetails" name;
              Call.GetPrivateDataHash "collectionFilePrivateDetails" name ] →
  (run (getFileHash [name]) s).1
  = match (run (readFile [name]) s).1 with
    | shim.Success (Some valAsbytes) => shim.Success (Some (digest s valAsbytes))
    | _ => shim.Error (jsonResp_open +:+ "File private file data hash does not exist: "
                         +:+ name +:+ jsonResp_close)
    end
  ∧ (run (getFilePrivateDetailsHash [name]) s).1
    = match (run (readFilePrivateDetails [name]) s).1 with
      | shim.Success (Some valAsbytes) => shim.Success (Some (digest s valAsbytes))
      | _ => shim.Error (jsonResp_open +:+ "File private details hash does not exist: "
                           +:+ name +:+ jsonResp_close)
      end.
Proof.
  unfold succeed. intros Hok.
  apply Forall_cons in Hok as [H1 Hok]. apply Forall_cons in Hok as [H2 Hok].
  apply Forall_cons in Hok as [H3 Hok]. apply Forall_cons in Hok as [H4 _].
  unfold getFileHash, getFilePrivateDetailsHash. split; tx_run.
  - by destruct (collection s "collectionFiles" !! name).
  - by destruct (collection s "collectionFilePrivateDetails" !! name).
Qed.

(** X6: when the adapter reports an error on their read, the two readers
    and the digest reader of the restricted partition answer a message with
    the name and the text of the error; the digest reader of the shared
    partition answers a message with the name only. None of them goes on. *)
Theorem readers_report_adapter_error s (name err : string) :
  fails s (Call.GetPrivateData "collectionFiles" name) = Some err →
  fails s (Call.GetPrivateData "collectionFilePrivateDetails" name) = Some err →
  fails s (Call.GetPrivateDataHash "collectionFiles" name) = Some err →
  fails s (Call.GetPrivateDataHash "collectionFilePrivateDetails" name) = Some err →
  (run (readFile [name]) s).1
  = shim.Error (jsonResp_open +:+ "Failed to get state for " +:+ name +:+ ": " +:+ err
                  +:+ jsonResp_close)
  ∧ (run (readFilePrivateDetails [name]) s).1
    = shim.Error (jsonResp_open +:+ "Failed to get private details for " +:+ name +:+ ": "
                    +:+ err +:+ jsonResp_close)
  ∧ (run (getFileHash [name]) s).1
    = shim.Error (jsonResp_open +:+ "Failed to get file private data hash for " +:+ name
                    +:+ jsonResp_close)
  ∧ (run (getFilePrivateDetailsHash [name]) s).1
    = shim.Error (jsonResp_open +:+ "Failed to get file private details hash for " +:+ name
                    +:+ ": " +:+ err +:+ jsonResp_close).
Proof.
  intros H1 H2 H3 H4. unfold getFileHash, getFilePrivateDetailsHash.
  repeat split; by tx_run.
Qed.

End Queries.

(** ** The input of the handlers that read the transient map *)

Section TransientInput.
Context `{!json.Codec}.
Implicit Types (s : ChaincodeStub).

(** X7: when the transient map cannot be read, lacks the key of the
    handler, holds an empty value under it, or a value that does not
    decode, the handler answers the message of that case, and the only call
    on the stub is the one for the transient map: no key of the ledger is
    read or written. The keys are file, file_delete and file_owner. *)
Theorem transient_input_errors s :
  (∀ err, fails s Call.GetTransient = Some err →
     run (initFile []) s
     = (shim.Error ("Error getting transient: " +:+ err), log Call.GetTransient s)
     ∧ run (delete []) s
       = (shim.Error ("Error getting transient: " +:+ err), log Call.GetTransient s)
     ∧ run (transferFile []) s
       = (shim.Error ("Error getting transient: " +:+ err), log Call.GetTransient s))
  ∧ (fails s Call.GetTransient = None →
     (transient s !! "file" = None →
      run (initFile []) s
      = (shim.Error "file must be a key in the transient map", log Call.GetTransient s))
     ∧ (transient s !! "file_delete" = None →
        run (delete []) s
        = (shim.Error "file_delete must be a key in the transient map",
           log Call.GetTransient s))
     ∧ (transient s !! "file_owner" = None →
        run (transferFile []) s
        = (shim.Error "file_owner must be a key in the transient map",
           log Call.GetTransient s))
     ∧ (transient s !! "file" = Some EmptyString →
        run (initFile []) s
        = (shim.Error "file value in the transient map must be a non-empty JSON string",
           log Call.GetTransient s))
     ∧ (transient s !! "file_delete" = Some EmptyString →
        run (delete []) s
        = (shim.Error "file_delete value in the transient map must be a non-empty JSON string",
           log Call.GetTransient s))
     ∧ (transient s !! "file_owner" = Some EmptyString →
        run (transferFile []) s
        = (shim.Error "file_owner value in the transient map must be a non-empty JSON string",
           log Call.GetTransient s))
     ∧ (∀ data err, transient s !! "file" = Some data → data ≠ EmptyString →
          json.Unmarshal_fileTransientInput data = Err err →
          run (initFile []) s
          = (shim.Error ("Failed to decode JSON of: " +:+ data), log Call.GetTransient s))
     ∧ (∀ data err, transient s !! "file_delete" = Some data → data ≠ EmptyString →
          json.Unmarshal_fileDeleteTransientInput data = Err err →
          run (delete []) s
          = (shim.Error ("Failed to decode JSON of: " +:+ data), log Call.GetTransient s))
     ∧ (∀ data err, transient s !! "file_owner" = Some data → data ≠ EmptyString →
          json.Unmarshal_fileTransferTransientInput data = Err err →
          run (transferFile []) s
          = (shim.Error ("Failed to decode JSON of: " +:+ data), log Call.GetTransient s))).
Proof.
  split.
  - intros err Herr. repeat split; by tx_run.
  - intros Hok. repeat split.
    1-6: intros Hkey; by tx_run.
    all: intros data err Hkey Hne Hdec; by tx_run.
Qed.

(** X8: the rules of a create payload are checked in the order name,
    ipfshash, size, owner, folio, and the message is that of the first rule
    the payload breaks; in each case the only call on the stub is the one
    for the transient map. *)
Theorem initFile_validation_order s data input :
  payload s "file" data →
  json.Unmarshal_fileTransientInput data = Ok input →
  (fileTransientInput.Name input = EmptyString →
   run (initFile []) s
   = (shim.Error "name field must be a non-empty string", log Call.GetTransient s))
  ∧ (fileTransientInput.Name input ≠ EmptyString →
     fileTransientInput.IPFShash input = EmptyString →
     run (initFile []) s
     = (shim.Error "ipfshash field must be a non-empty string", log Call.GetTransient s))
  ∧ (fileTransientInput.Name input ≠ EmptyString →
     fileTransientInput.IPFShash input ≠ EmptyString →
     (fileTransientInput.Timestamp input ≤ 0)%Z →
     run (initFile []) s
     = (shim.Error "size field must be a positive integer", log Call.GetTransient s))
  ∧ (fileTransientInput.Name input ≠ EmptyString →
     fileTransientInput.IPFShash input ≠ EmptyString →
     (0 < fileTransientInput.Timestamp input)%Z →
     fileTransientInput.Owner input = EmptyString →
     run (initFile []) s
     = (shim.Error "owner field must be a non-empty string", log Call.GetTransient s))
  ∧ (fileTransientInput.Name input ≠ EmptyString →
     fileTransientInput.IPFShash input ≠ EmptyString →
     (0 < fileTransientInput.Timestamp input)%Z →
     fileTransientInput.Owner input ≠ EmptyString →
     (fileTransientInput.Folio input ≤ 0)%Z →
     run (initFile []) s
     = (shim.Error "folio field must be a positive integer", log Call.GetTransient s)).
Proof.
  intros (Ht & Hd & Hne) Hin. repeat split.
  - intros Hn. tx_run. by rewrite Hn.
  - intros Hn Hh. tx_run. by rewrite Hh.
  - intros Hn Hh Hts. by tx_run.
  - intros Hn Hh Hts Ho. tx_run. by rewrite Ho.
  - intros Hn Hh Hts Ho Hf. by tx_run.
Qed.

End TransientInput.

(** ** More on create *)

Section MoreCreate.
Context `{!json.Codec}.
Implicit Types (s : ChaincodeStub) (input : fileTransientInput.t).

(** X9: a create does not undo its earlier writes when a later step
    reports an error. When the write of the restricted record fails, the
    create answers the error and the stub has been given the shared record
    and nothing else; when the making of the index key fails, the create
    answers the error and the stub has been given both records and no index
    entry. *)
Theorem create_failure_keeps_earlier_writes s data input err :
  payload s "file" data →
  json.Unmarshal_fileTransientInput data = Ok input →
  valid_input input →
  collection s "collectionFiles" !! fileTransientInput.Name input = None →
  fails s (Call.GetPrivateData "collectionFiles" (fileTransientInput.Name input)) = None →
  fails s (Call.PutPrivateData "collectionFiles" (fileTransientInput.Name input)
             (json.Marshal_file (file_of input))) = None →
  (fails s (Call.PutPrivateData "collectionFilePrivateDetails"
              (fileTransientInput.Name input)
              (json.Marshal_filePrivateDetails (details_of input))) = Some err →
   ∃ s', run (initFile []) s = (shim.Error err, s')
     ∧ collection s' "collectionFiles"
       = <[fileTransientInput.Name input := json.Marshal_file (file_of input)]>
           (collection s "collectionFiles")
     ∧ collection s' "collectionFilePrivateDetails"
       = collection s "collectionFilePrivateDetails")
  ∧ (fails s (Call.PutPrivateData "collectionFilePrivateDetails"
                (fileTransientInput.Name input)
                (json.Marshal_filePrivateDetails (details_of input))) = None →
     fails s (Call.CreateCompositeKey "ipfshash~name"
                [fileTransientInput.IPFShash input; fileTransientInput.Name input])
     = Some err →
     ∃ s', run (initFile []) s = (shim.Error err, s')
       ∧ collection s' "collectionFiles"
         = <[fileTransientInput.Name input := json.Marshal_file (file_of input)]>
             (collection s "collectionFiles")
       ∧ collection s' "collectionFilePrivateDetails"
         = <[fileTransientInput.Name input
              := json.Marshal_filePrivateDetails (details_of input)]>
             (collection s "collectionFilePrivateDetails")).
Proof.
  intros (Ht & Hd & Hne) Hin (Hn & Hh & Hts & Ho & Hf) Hfree Hget Hput1.
  unfold file_of, details_of in *. split.
  - intros Hput2. tx_run. eexists. split; [reflexivity|]. by repeat (tx_cbn; tx_rw).
  - intros Hput2 Hkey. tx_run. eexists. split; [reflexivity|]. by repeat (tx_cbn; tx_rw).
Qed.

(** X10: a create that answers success has changed three keys at most: in
    the shared partition the name and the index key of its hash and name,
    in the restricted partition the name. Every other key of the two
    partitions, and every other partition, is as before. *)
Theorem create_changes_three_keys s data input r s' :
  payload s "file" data →
  json.Unmarshal_fileTransientInput data = Ok input →
  run (initFile []) s = (shim.Success r, s') →
  (∀ key, key ≠ fileTransientInput.Name input →
          key ≠ index_key (fileTransientInput.IPFShash input) (fileTransientInput.Name input) →
          collection s' "collectionFiles" !! key = collection s "collectionFiles" !! key)
  ∧ (∀ key, key ≠ fileTransientInput.Name input →
            collection s' "collectionFilePrivateDetails" !! key
            = collection s "collectionFilePrivateDetails" !! key)
  ∧ (∀ c, c ≠ "collectionFiles" → c ≠ "collectionFilePrivateDetails" →
          collection s' c = collection s c).
Proof.
  intros Hp Hin Hrun.
  destruct (initFile_success_inv s data input r s' Hp Hin Hrun) as (Hv & Hfree & Hok).
  destruct (initFile_succeeds s data input Hp Hin Hv Hfree Hok)
    as (s'' & Hrun' & Hshared & Hdetails & Hother).
  rewrite Hrun in Hrun'. injection Hrun' as _ <-.
  repeat split; [| |done].
  - intros key Hkey Hidx. rewrite Hshared. unfold shared_after_create.
    destruct (fails s (index_put input)).
    + by rewrite lookup_insert_ne.
    + by rewrite !lookup_insert_ne.
  - intros key Hkey. rewrite Hdetails. by rewrite lookup_insert_ne.
Qed.

(** X11: after a create that answers success and whose index write went
    through, a range query on the shared partition yields the record under
    its name whenever neither key of the query starts with a zero byte, the
    name does not start with one, and the name is at or after the start key
    and before the end key, an empty end key being no bound. The index
    entry is stored, and no range query yields it: its key starts with a
    zero byte, and the shim keeps such keys out of every range. *)
Theorem create_is_listed_by_range s data input r s' (startKey endKey : string) :
  payload s "file" data →
  json.Unmarshal_fileTransientInput data = Ok input →
  fails s (index_put input) = None →
  run (initFile []) s = (shim.Success r, s') →
  (starts_with_zero startKey = false → starts_with_zero endKey = false →
   starts_with_zero (fileTransientInput.Name input) = false →
   String.le startKey (fileTransientInput.Name input) →
   endKey = EmptyString ∨ ¬ String.le endKey (fileTransientInput.Name input) →
   ∃ entries,
     range_iterator (collection s' "collectionFiles") startKey endKey = Ok entries
     ∧ (fileTransientInput.Name input, json.Marshal_file (file_of input)) ∈ entries)
  ∧ collection s' "collectionFiles"
      !! index_key (fileTransientInput.IPFShash input) (fileTransientInput.Name input)
    = Some sentinel
  ∧ (∀ entries v,
       range_iterator (collection s' "collectionFiles") startKey endKey = Ok entries →
       (index_key (fileTransientInput.IPFShash input) (fileTransientInput.Name input), v)
       ∉ entries).
Proof.
  intros Hp Hin Hidx Hrun.
  destruct (create_success_with_index_entry s data input r s' Hp Hin Hidx Hrun)
    as [Hrecord Hentry].
  destruct (initFile_success_inv s data input r s' Hp Hin Hrun) as ((Hname & _) & _).
  split; [|split; [done|]].
  - intros Hs He Hn Hstart Hend. eexists. split; [by apply range_iterator_Ok|].
    apply range_entries_elem. split; [done|]. split; [|done].
    by apply substitute_empty_le.
  - intros entries v (Hs & He & ->)%range_iterator_Ok.
    rewrite range_entries_elem, substitute_empty_le by done.
    intros (_ & (_ & _ & Hz) & _). unfold index_key in Hz.
    by rewrite compositeKey_starts_with_zero in Hz.
Qed.

End MoreCreate.

(** ** More on delete *)

Section MoreDelete.
Context `{!json.Codec}.
Implicit Types (s : ChaincodeStub) (input : fileDeleteTransientInput.t).

(** X12: a delete is turned down before any write when its name is empty,
    when the adapter reports an error on the read of the name (the text of
    the error is not in the message), when the name is not a key of the
    shared partition, and when the value stored under the name does not
    decode. In each case the stub has only been asked for the transient map
    and, but for the empty name, for the key of the name. *)
Theorem delete_rejected_before_any_write s data input :
  payload s "file_delete" data →
  json.Unmarshal_fileDeleteTransientInput data = Ok input →
  (fileDeleteTransientInput.Name input = EmptyString →
   run (delete []) s
   = (shim.Error "name field must be a non-empty string", log Call.GetTransient s))
  ∧ (fileDeleteTransientInput.Name input ≠ EmptyString →
     (∀ err,
        fails s (Call.GetPrivateData "collectionFiles" (fileDeleteTransientInput.Name input))
        = Some err →
        run (delete []) s
        = (shim.Error ("Failed to get state for " +:+ fileDeleteTransientInput.Name input),
           log (Call.GetPrivateData "collectionFiles" (fileDeleteTransientInput.Name input))
             (log Call.GetTransient s)))
     ∧ (fails s (Call.GetPrivateData "collectionFiles" (fileDeleteTransientInput.Name input))
        = None →
        (collection s "collectionFiles" !! fileDeleteTransientInput.Name input = None →
         run (delete []) s
         = (shim.Error ("File does not exist: " +:+ fileDeleteTransientInput.Name input),
            log (Call.GetPrivateData "collectionFiles" (fileDeleteTransientInput.Name input))
              (log Call.GetTransient s)))
        ∧ (∀ value err,
             collection s "collectionFiles" !! fileDeleteTransientInput.Name input
             = Some value →
             json.Unmarshal_file value = Err err →
             run (delete []) s
             = (shim.Error ("Failed to decode JSON of: " +:+ value),
                log (Call.GetPrivateData "collectionFiles"
                       (fileDeleteTransientInput.Name input))
                  (log Call.GetTransient s))))).
Proof.
  intros (Ht & Hd & Hne) Hin. split; [|intros Hn; split; [|intros Hget; split]].
  - intros Hn. tx_run. by rewrite Hn.
  - intros err Hget. by tx_run.
  - intros Hv. by tx_run.
  - intros value err Hv Hf. by tx_run.
Qed.

(** X14: a delete that answers success has changed three keys at most: in
    the shared partition the name and the index key of the hash and name of
    the record that was stored under the name, in the restricted partition
    the name. Every other key and every other partition is as before, and a
    range iterator over the shared partition no longer yields the name. *)
Theorem delete_changes_three_keys s data input r s' :
  payload s "file_delete" data →
  json.Unmarshal_fileDeleteTransientInput data = Ok input →
  run (delete []) s = (shim.Success r, s') →
  ∃ value fileToDelete,
    collection s "collectionFiles" !! fileDeleteTransientInput.Name input = Some value
    ∧ json.Unmarshal_file value = Ok fileToDelete
    ∧ (∀ key, key ≠ fileDeleteTransientInput.Name input →
              key ≠ index_key (file.IPFShash fileToDelete) (file.Name fileToDelete) →
              collection s' "collectionFiles" !! key = collection s "collectionFiles" !! key)
    ∧ (∀ key, key ≠ fileDeleteTransientInput.Name input →
              collection s' "collectionFilePrivateDetails" !! key
              = collection s "collectionFilePrivateDetails" !! key)
    ∧ (∀ c, c ≠ "collectionFiles" → c ≠ "collectionFilePrivateDetails" →
            collection s' c = collection s c)
    ∧ (∀ startKey endKey v,
         (fileDeleteTransientInput.Name input, v)
         ∉ range_entries (collection s' "collectionFiles") startKey endKey).
Proof.
  intros Hp Hin Hrun.
  destruct (delete_success_inv s data input r s' Hp Hin Hrun)
    as (value & f & Hv & Hf & Hshared & Hdetails & Hother).
  exists value, f. repeat split; try done.
  - intros key Hkey Hidx. rewrite Hshared. by rewrite !lookup_delete_ne.
  - intros key Hkey. rewrite Hdetails. by rewrite lookup_delete_ne.
  - intros startKey endKey v. rewrite range_entries_elem, Hshared. intros [Hin' _].
    destruct (decide (index_key (file.IPFShash f) (file.Name f)
                      = fileDeleteTransientInput.Name input)) as [Heq|Hne].
    + by rewrite Heq, lookup_delete_eq in Hin'.
    + by rewrite lookup_delete_ne, lookup_delete_eq in Hin'.
Qed.

(** X15: a delete does not undo its earlier removals when a later step
    reports an error. Once the key of the name is removed from the shared
    partition, an error on the making of the index key, on the removal of
    the index key or on the removal from the restricted partition is
    answered, and the restricted record of the name is still there. *)
Theorem delete_failure_keeps_earlier_removals s data input value fileToDelete err :
  payload s "file_delete" data →
  json.Unmarshal_fileDeleteTransientInput data = Ok input →
  fileDeleteTransientInput.Name input ≠ EmptyString →
  collection s "collectionFiles" !! fileDeleteTransientInput.Name input = Some value →
  json.Unmarshal_file value = Ok fileToDelete →
  succeed s [ Call.GetPrivateData "collectionFiles" (fileDeleteTransientInput.Name input);
              Call.DelPrivateData "collectionFiles" (fileDeleteTransientInput.Name input) ] →
  (fails s (Call.CreateCompositeKey "ipfshash~name"
              [file.IPFShash fileToDelete; file.Name fileToDelete]) = Some err →
   ∃ s', run (delete []) s = (shim.Error err, s')
     ∧ collection s' "collectionFiles"
       = base.delete (fileDeleteTransientInput.Name input) (collection s "collectionFiles")
     ∧ collection s' "collectionFilePrivateDetails"
       = collection s "collectionFilePrivateDetails")
  ∧ (fails s (Call.CreateCompositeKey "ipfshash~name"
                [file.IPFShash fileToDelete; file.Name fileToDelete]) = None →
     (fails s (Call.DelPrivateData "collectionFiles"
                 (index_key (file.IPFShash fileToDelete) (file.Name fileToDelete)))
      = Some err →
      ∃ s', run (delete []) s = (shim.Error ("Failed to delete state:" +:+ err), s')
        ∧ collection s' "collectionFiles"
          = base.delete (fileDeleteTransientInput.Name input)
              (collection s "collectionFiles")
        ∧ collection s' "collectionFilePrivateDetails"
          = collection s "collectionFilePrivateDetails")
     ∧ (fails s (Call.DelPrivateData "collectionFiles"
                   (index_key (file.IPFShash fileToDelete) (file.Name fileToDelete)))
        = None →
        fails s (Call.DelPrivateData "collectionFilePrivateDetails"
                   (fileDeleteTransientInput.Name input)) = Some err →
        ∃ s', run (delete []) s = (shim.Error err, s')
          ∧ collection s' "collectionFiles"
            = base.delete (index_key (file.IPFShash fileToDelete) (file.Name fileToDelete))
                (base.delete (fileDeleteTransientInput.Name input)
                   (collection s "collectionFiles"))
          ∧ collection s' "collectionFilePrivateDetails"
            = collection s "collectionFilePrivateDetails")).
Proof.
  intros (Ht & Hd & Hne) Hin Hn Hv Hf Hok. unfold succeed in Hok.
  apply Forall_cons in Hok as [Hget Hok]. apply Forall_cons in Hok as [Hdel1 _].
  unfold index_key.
  split; [|intros Hkey; split].
  - intros Hkey. tx_run. eexists. split; [reflexivity|]. by repeat (tx_cbn; tx_rw).
  - intros Hdel2. tx_run. eexists. split; [reflexivity|]. by repeat (tx_cbn; tx_rw).
  - intros Hdel2 Hdel3. tx_run. eexists. split; [reflexivity|]. by repeat (tx_cbn; tx_rw).
Qed.

(** X16: a create followed by a delete of the same name, both answering
    success, leaves the shared and the restricted partition as they were
    before the create, provided the index key and the restricted key of the
    name were free before and the stored record decodes to what the create
    encoded. *)
Theorem create_then_delete_restores_ledger
    s (data : bytes) (input : fileTransientInput.t) (r : option bytes) s1 s2
    (data2 : bytes) (input2 : fileDeleteTransientInput.t) (r2 : option bytes) s3 :
  payload s "file" data →
  json.Unmarshal_fileTransientInput data = Ok input →
  run (initFile []) s = (shim.Success r, s1) →
  collection s "collectionFiles"
    !! index_key (fileTransientInput.IPFShash input) (fileTransientInput.Name input) = None →
  collection s "collectionFilePrivateDetails" !! fileTransientInput.Name input = None →
  json.Unmarshal_file (json.Marshal_file (file_of input)) = Ok (file_of input) →
  collections s2 = collections s1 →
  payload s2 "file_delete" data2 →
  json.Unmarshal_fileDeleteTransientInput data2 = Ok input2 →
  fileDeleteTransientInput.Name input2 = fileTransientInput.Name input →
  run (delete []) s2 = (shim.Success r2, s3) →
  collection s3 "collectionFiles" = collection s "collectionFiles"
  ∧ collection s3 "collectionFilePrivateDetails" = collection s "collectionFilePrivateDetails".
Proof.
  intros Hp Hin Hrun Hnoidx Hnodetails Hround Hsame Hp2 Hin2 Hname Hrun2.
  destruct (initFile_success_inv s data input r s1 Hp Hin Hrun) as (Hv & Hfree & Hok).
  destruct (initFile_succeeds s data input Hp Hin Hv Hfree Hok)
    as (s1' & Hrun' & Hshared & Hdetails & _).
  rewrite Hrun in Hrun'. injection Hrun' as _ <-.
  destruct (delete_success_inv s2 data2 input2 r2 s3 Hp2 Hin2 Hrun2)
    as (value & f & Hvalue & Hf & Hshared3 & Hdetails3 & _).
  rewrite !(collection_ext s2 s1) in * by done. rewrite Hname in *.
  assert (Hstored : collection s1 "collectionFiles" !! fileTransientInput.Name input
                    = Some (json.Marshal_file (file_of input))).
  { rewrite Hshared. unfold shared_after_create. destruct (fails s (index_put input)).
    - by rewrite lookup_insert_eq.
    - rewrite lookup_insert_ne; [by rewrite lookup_insert_eq|].
      apply compositeKey_ne_name. }
  rewrite Hstored in Hvalue. injection Hvalue as <-.
  rewrite Hround in Hf. injection Hf as <-.
  change (index_key (file.IPFShash (file_of input)) (file.Name (file_of input)))
    with (index_key (fileTransientInput.IPFShash input) (fileTransientInput.Name input))
    in Hshared3.
  split.
  - rewrite Hshared3, Hshared. unfold shared_after_create. apply map_eq. intros key.
    destruct (decide (key = index_key (fileTransientInput.IPFShash input)
                              (fileTransientInput.Name input))) as [->|Hk1].
    { by rewrite lookup_delete_eq. }
    rewrite lookup_delete_ne by done.
    destruct (decide (key = fileTransientInput.Name input)) as [->|Hk2].
    { by rewrite lookup_delete_eq. }
    rewrite lookup_delete_ne by done.
    destruct (fails s (index_put input)); by rewrite ?lookup_insert_ne.
  - rewrite Hdetails3, Hdetails. apply map_eq. intros key.
    destruct (decide (key = fileTransientInput.Name input)) as [->|Hk].
    { by rewrite lookup_delete_eq. }
    by rewrite lookup_delete_ne, lookup_insert_ne.
Qed.

End MoreDelete.

(** ** More on transfer *)

Section MoreTransfer.
Context `{!json.Codec}.
Implicit Types (s : ChaincodeStub).

(** X17: a transfer is turned down before any write when its name or its
    owner is empty (the name is looked at first), when the adapter reports
    an error on the read of the name, when the name is not a key of the
    shared partition, and when the value stored under the name does not
    decode; in the last case the message is the error of the decoder. *)
Theorem transfer_rejected_before_any_write s data
    (input : fileTransferTransientInput.t) :
  payload s "file_owner" data →
  json.Unmarshal_fileTransferTransientInput data = Ok input →
  (fileTransferTransientInput.Name input = EmptyString →
   run (transferFile []) s
   = (shim.Error "name field must be a non-empty string", log Call.GetTransient s))
  ∧ (fileTransferTransientInput.Name input ≠ EmptyString →
     fileTransferTransientInput.Owner input = EmptyString →
     run (transferFile []) s
     = (shim.Error "owner field must be a non-empty string", log Call.GetTransient s))
  ∧ (fileTransferTransientInput.Name input ≠ EmptyString →
     fileTransferTransientInput.Owner input ≠ EmptyString →
     (∀ err,
        fails s (Call.GetPrivateData "collectionFiles"
                   (fileTransferTransientInput.Name input)) = Some err →
        run (transferFile []) s
        = (shim.Error ("Failed to get file:" +:+ err),
           log (Call.GetPrivateData "collectionFiles"
                  (fileTransferTransientInput.Name input))
             (log Call.GetTransient s)))
     ∧ (fails s (Call.GetPrivateData "collectionFiles"
                   (fileTransferTransientInput.Name input)) = None →
        (collection s "collectionFiles" !! fileTransferTransientInput.Name input = None →
         run (transferFile []) s
         = (shim.Error ("File does not exist: " +:+ fileTransferTransientInput.Name input),
            log (Call.GetPrivateData "collectionFiles"
                   (fileTransferTransientInput.Name input))
              (log Call.GetTransient s)))
        ∧ (∀ value err,
             collection s "collectionFiles" !! fileTransferTransientInput.Name input
             = Some value →
             json.Unmarshal_file value = Err err →
             run (transferFile []) s
             = (shim.Error err,
                log (Call.GetPrivateData "collectionFiles"
                       (fileTransferTransientInput.Name input))
                  (log Call.GetTransient s))))).
Proof.
  intros (Ht & Hd & Hne) Hin.
  split; [|split; [|intros Hn Ho; split; [|intros Hget; split]]].
  - intros Hn. tx_run. by rewrite Hn.
  - intros Hn Ho. tx_run. by rewrite Ho.
  - intros err Hget. by tx_run.
  - intros Hv. by tx_run.
  - intros value err Hv Hf. by tx_run.
Qed.

(** X18: a transfer that answers success writes under the name that the
    stored record carries, not under the name of the payload. When the two
    differ, the value under the name of the payload is as before, and the
    key of the other name holds the record with the new owner. *)
Theorem transfer_writes_under_stored_name s data
    (input : fileTransferTransientInput.t) value f r s' :
  payload s "file_owner" data →
  json.Unmarshal_fileTransferTransientInput data = Ok input →
  collection s "collectionFiles" !! fileTransferTransientInput.Name input = Some value →
  json.Unmarshal_file value = Ok f →
  run (transferFile []) s = (shim.Success r, s') →
  collection s' "collectionFiles"
  = <[file.Name f := json.Marshal_file
                       (with_owner f (fileTransferTransientInput.Owner input))]>
      (collection s "collectionFiles")
  ∧ (file.Name f ≠ fileTransferTransientInput.Name input →
     collection s' "collectionFiles" !! fileTransferTransientInput.Name input = Some value
     ∧ collection s' "collectionFiles" !! file.Name f
       = Some (json.Marshal_file (with_owner f (fileTransferTransientInput.Owner input)))).
Proof.
  intros Hp Hin Hv Hf Hrun.
  destruct (transferFile_success_inv s data input value f r s' Hp Hin Hv Hf Hrun)
    as (Hn & Ho & Hok).
  destruct (transferFile_succeeds s data input value f Hp Hin Hn Ho Hv Hf Hok)
    as (s'' & Hrun' & _ & _ & Hcs & _).
  rewrite Hrun in Hrun'. injection Hrun' as _ <-.
  assert (Hshared : collection s' "collectionFiles"
    = <[file.Name f := json.Marshal_file
          (with_owner f (fileTransferTransientInput.Owner input))]>
        (collection s "collectionFiles")).
  { unfold collection at 1. by rewrite Hcs, lookup_insert_eq. }
  split; [done|]. intros Hne. rewrite Hshared.
  by rewrite lookup_insert_ne, lookup_insert_eq.
Qed.

(** X19: after a create and a transfer of the same name, both answering
    success, the reader of the shared partition answers the record of the
    create with the owner of the transfer, and the reader of the restricted
    partition answers the restricted record of the create; the stored
    record is assumed to decode to what the create encoded. *)
Theorem create_then_transfer_then_read
    s (data : bytes) (input : fileTransientInput.t) (r : option bytes) s1 s2
    (data2 : bytes) (input2 : fileTransferTransientInput.t) (r2 : option bytes) s3 s4 :
  payload s "file" data →
  json.Unmarshal_fileTransientInput data = Ok input →
  run (initFile []) s = (shim.Success r, s1) →
  json.Unmarshal_file (json.Marshal_file (file_of input)) = Ok (file_of input) →
  collections s2 = collections s1 →
  payload s2 "file_owner" data2 →
  json.Unmarshal_fileTransferTransientInput data2 = Ok input2 →
  fileTransferTransientInput.Name input2 = fileTransientInput.Name input →
  run (transferFile []) s2 = (shim.Success r2, s3) →
  collections s4 = collections s3 →
  succeed s4 [ Call.GetPrivateData "collectionFiles" (fileTransientInput.Name input);
               Call.GetPrivateData "collectionFilePrivateDetails"
                 (fileTransientInput.Name input) ] →
  (run (readFile [fileTransientInput.Name input]) s4).1
  = shim.Success (Some (json.Marshal_file
      (file.mk "file" (fileTransientInput.Name input) (fileTransientInput.IPFShash input)
         (fileTransientInput.Timestamp input) (fileTransferTransientInput.Owner input2))))
  ∧ (run (readFilePrivateDetails [fileTransientInput.Name input]) s4).1
    = shim.Success (Some (json.Marshal_filePrivateDetails (details_of input))).
Proof.
  intros Hp Hin Hrun Hround Hsame Hp2 Hin2 Hname Hrun2 Hsame4 Hok4.
  unfold succeed in Hok4.
  apply Forall_cons in Hok4 as [Hget1 Hok4]. apply Forall_cons in Hok4 as [Hget2 _].
  destruct (initFile_success_inv s data input r s1 Hp Hin Hrun) as (Hv & Hfree & Hok).
  destruct (initFile_succeeds s data input Hp Hin Hv Hfree Hok)
    as (s1' & Hrun' & Hshared & Hdetails & _).
  rewrite Hrun in Hrun'. injection Hrun' as _ <-.
  assert (Hstored : collection s2 "collectionFiles" !! fileTransferTransientInput.Name input2
                    = Some (json.Marshal_file (file_of input))).
  { rewrite (collection_ext s2 s1), Hname, Hshared by done. unfold shared_after_create.
    destruct (fails s (index_put input)).
    - by rewrite lookup_insert_eq.
    - rewrite lookup_insert_ne; [by rewrite lookup_insert_eq|].
      apply compositeKey_ne_name. }
  destruct (transferFile_success_inv s2 data2 input2 _ (file_of input) r2 s3
              Hp2 Hin2 Hstored Hround Hrun2) as (Hn & Ho & Hok2).
  destruct (transferFile_succeeds s2 data2 input2 _ (file_of input)
              Hp2 Hin2 Hn Ho Hstored Hround Hok2) as (s3' & Hrun2' & _ & _ & Hcs & _).
  rewrite Hrun2 in Hrun2'. injection Hrun2' as _ <-.
  assert (Hshared3 : collection s3 "collectionFiles"
    = <[file.Name (file_of input) := json.Marshal_file
          (with_owner (file_of input) (fileTransferTransientInput.Owner input2))]>
        (collection s2 "collectionFiles")).
  { unfold collection at 1. by rewrite Hcs, lookup_insert_eq. }
  assert (Hdetails3 : collection s3 "collectionFilePrivateDetails"
    = collection s2 "collectionFilePrivateDetails").
  { unfold collection. by rewrite Hcs, lookup_insert_ne. }
  rewrite readFile_run, readFilePrivateDetails_run by done.
  rewrite !(collection_ext s4 s3) by done.
  rewrite Hshared3, Hdetails3, (collection_ext s2 s1 "collectionFilePrivateDetails"),
    Hdetails by done.
  cbn [file.Name file_of]. by rewrite !lookup_insert_eq.
Qed.

End MoreTransfer.

(** ** Errors of the range query *)

Section RangeErrors.
Context `{!json.Codec}.
Implicit Types (s : ChaincodeStub).

(** The loop stops at the first step of the iterator on which the adapter
    reports an error, and returns that error. *)
Lemma getFilesByRange_loop_first_error (pre : list (string * bytes)) :
  ∀ (e : string * bytes) (post : list (string * bytes)) (written : bool)
    (buffer : string) s (err : string),
    Forall (λ x, fails s (Call.Next x.1) = None) pre →
    fails s (Call.Next e.1) = Some err →
    (getFilesByRange_loop (pre ++ e :: post)%list written buffer s).2
    = inr (shim.Error err).
Proof.
  induction pre as [|x pre IH]; intros e post written buffer s err Hpre Herr.
  - cbn [app getFilesByRange_loop]. by tx_run.
  - apply Forall_cons in Hpre as [Hx Hpre].
    cbn [app getFilesByRange_loop]. tx_run.
    apply (IH e post true _ (log (Call.Next x.1) s) err); done.
Qed.

(** X20: a range query answers the error of the adapter, and no partial
    result, when the adapter reports one on the query itself or on a step
    of the iterator; of several failing steps the first one in key order
    decides. *)
Theorem range_scan_answers_first_error s (startKey endKey : string) :
  (∀ err, fails s (Call.GetPrivateDataByRange "collectionFiles" startKey endKey) = Some err →
     run (getFilesByRange [startKey; endKey]) s
     = (shim.Error err,
        log (Call.GetPrivateDataByRange "collectionFiles" startKey endKey) s))
  ∧ (fails s (Call.GetPrivateDataByRange "collectionFiles" startKey endKey) = None →
     ∀ pre e post err,
       range_iterator (collection s "collectionFiles") startKey endKey
       = Ok (pre ++ e :: post)%list →
       Forall (λ x, fails s (Call.Next x.1) = None) pre →
       fails s (Call.Next e.1) = Some err →
       (run (getFilesByRange [startKey; endKey]) s).1 = shim.Error err).
Proof.
  split.
  - intros err Hrange. by tx_run.
  - intros Hrange pre e post err Hentries Hpre Herr.
    rewrite getFilesByRange_query. cbv zeta. rewrite Hrange, Hentries.
    pose proof (getFilesByRange_loop_first_error pre e post false "["
                  (log (Call.GetPrivateDataByRange "collectionFiles" startKey endKey) s)
                  err Hpre Herr) as Hloop.
    destruct (getFilesByRange_loop _ false "[" _) as [s' [buffer|res]];
      cbn [snd] in Hloop; [done|]. by injection Hloop as ->.
Qed.

End RangeErrors.

(** ** The further properties on the scenarios *)

Section MoreScenarios.
Local Existing Instance encoding_json.

(** The function name foo. *)
Lemma Invoke_unknown_witness :
  run (Invoke "foo" ["f1"]) (proposal ∅ ledger_f1)
  = (shim.Error "Received unknown function invocation", proposal ∅ ledger_f1).
Proof. apply Invoke_unknown. by_compute. Defined.

(** One positional argument. *)
Lemma transient_handlers_reject_arguments_witness :
  run (initFile ["f1"]) (proposal {[ "file" := payload_f1_size ]} ∅)
  = (shim.Error "Incorrect number of arguments. Private file data must be passed in transient map.",
     proposal {[ "file" := payload_f1_size ]} ∅)
  ∧ run (delete ["f1"]) (proposal {[ "file" := payload_f1_size ]} ∅)
    = (shim.Error "Incorrect number of arguments. Private file name must be passed in transient map.",
       proposal {[ "file" := payload_f1_size ]} ∅)
  ∧ run (transferFile ["f1"]) (proposal {[ "file" := payload_f1_size ]} ∅)
    = (shim.Error "Incorrect number of arguments. Private file data must be passed in transient map.",
       proposal {[ "file" := payload_f1_size ]} ∅).
Proof. apply transient_handlers_reject_arguments. done. Defined.

(** Two positional arguments. *)
Lemma readers_reject_argument_count_witness :
  run (readFile ["f1"; "f2"]) (proposal ∅ ledger_f1)
  = (shim.Error "Incorrect number of arguments. Expecting name of the file to query",
     proposal ∅ ledger_f1)
  ∧ run (readFilePrivateDetails ["f1"; "f2"]) (proposal ∅ ledger_f1)
    = (shim.Error "Incorrect number of arguments. Expecting name of the file to query",
       proposal ∅ ledger_f1)
  ∧ run (getFileHash ["f1"; "f2"]) (proposal ∅ ledger_f1)
    = (shim.Error "Incorrect number of arguments. Expecting name of the file to query",
       proposal ∅ ledger_f1)
  ∧ run (getFilePrivateDetailsHash ["f1"; "f2"]) (proposal ∅ ledger_f1)
    = (shim.Error "Incorrect number of arguments. Expecting name of the file to query",
       proposal ∅ ledger_f1).
Proof. apply readers_reject_argument_count. cbn. lia. Defined.

(** The digest readers on the ledger that holds f1; the digest of the
    scenarios is the identity. *)
Lemma digest_readers_follow_readers_witness :
  (run (getFileHash ["f1"]) (proposal ∅ ledger_f1)).1 = shim.Success (Some record_f1)
  ∧ (run (getFilePrivateDetailsHash ["f1"]) (proposal ∅ ledger_f1)).1
    = shim.Success (Some details_f1).
Proof.
  destruct (digest_readers_follow_readers (proposal ∅ ledger_f1) "f1") as [H1 H2].
  - unfold succeed. by repeat constructor.
  - split; [rewrite H1 | rewrite H2]; vm_compute; reflexivity.
Defined.

(** The readers on an adapter whose reads fail. *)
Lemma readers_report_adapter_error_witness :
  (run (readFile ["f1"]) (faulty ∅ ledger_f1 (reads_fail "boom"))).1
  = shim.Error (jsonResp_open +:+ "Failed to get state for f1: boom" +:+ jsonResp_close)
  ∧ (run (getFileHash ["f1"]) (faulty ∅ ledger_f1 (reads_fail "boom"))).1
    = shim.Error (jsonResp_open +:+ "Failed to get file private data hash for f1"
                    +:+ jsonResp_close).
Proof.
  destruct (readers_report_adapter_error (faulty ∅ ledger_f1 (reads_fail "boom")) "f1" "boom")
    as (H1 & _ & H3 & _); [reflexivity..|].
  split; [rewrite H1 | rewrite H3]; vm_compute; reflexivity.
Defined.

(** A transient map with an empty value for the create, a value that does
    not decode for the delete, and no value for the transfer. *)
Lemma transient_input_errors_witness :
  (run (initFile []) (proposal {[ "file" := EmptyString; "file_delete" := "{" ]} ∅)).1
  = shim.Error "file value in the transient map must be a non-empty JSON string"
  ∧ (run (delete []) (proposal {[ "file" := EmptyString; "file_delete" := "{" ]} ∅)).1
    = shim.Error ("Failed to decode JSON of: " +:+ "{")
  ∧ (run (transferFile []) (proposal {[ "file" := EmptyString; "file_delete" := "{" ]} ∅)).1
    = shim.Error "file_owner must be a key in the transient map".
Proof.
  destruct (transient_input_errors
              (proposal {[ "file" := EmptyString; "file_delete" := "{" ]} ∅)) as [_ Hok].
  destruct (Hok eq_refl) as (_ & _ & Howner & Hfile & _ & _ & _ & Hdelete & _).
  split; [|split].
  - rewrite Hfile; [done|]. vm_compute. reflexivity.
  - rewrite (Hdelete "{" "invalid JSON input"); [done| |done|].
    + vm_compute. reflexivity.
    + vm_compute. reflexivity.
  - rewrite Howner; [done|]. vm_compute. reflexivity.
Defined.

(** The empty JSON object breaks every rule; the message is that of the
    name. *)
Lemma initFile_validation_order_witness :
  run (initFile []) (proposal {[ "file" := "{}" ]} ∅)
  = (shim.Error "name field must be a non-empty string",
     log Call.GetTransient (proposal {[ "file" := "{}" ]} ∅)).
Proof.
  destruct (initFile_validation_order (proposal {[ "file" := "{}" ]} ∅) "{}"
              (fileTransientInput.mk EmptyString EmptyString 0 EmptyString 0))
    as (Hname & _).
  - by apply payload_proposal.
  - vm_compute. reflexivity.
  - by apply Hname.
Defined.

(** The create of f1 on an adapter that fails the write of the restricted
    record. *)
Lemma create_failure_keeps_earlier_writes_witness :
  ∃ s',
    run (initFile [])
      (faulty {[ "file" := payload_f1_size ]} ∅ (fail_on is_restricted_put "boom"))
    = (shim.Error "boom", s')
    ∧ collection s' "collectionFiles"
      = <["f1" := json.Marshal_file (file_of input_f1)]>
          (collection (faulty {[ "file" := payload_f1_size ]} ∅
                         (fail_on is_restricted_put "boom")) "collectionFiles")
    ∧ collection s' "collectionFilePrivateDetails"
      = collection (faulty {[ "file" := payload_f1_size ]} ∅
                      (fail_on is_restricted_put "boom")) "collectionFilePrivateDetails".
Proof.
  apply (proj1 (create_failure_keeps_earlier_writes
           (faulty {[ "file" := payload_f1_size ]} ∅ (fail_on is_restricted_put "boom"))
           payload_f1_size input_f1 "boom"
           ltac:(by repeat split) ltac:(vm_compute; reflexivity)
           ltac:(unfold valid_input; cbn; repeat split; (done || lia))
           ltac:(vm_compute; reflexivity) ltac:(reflexivity)
           ltac:(vm_compute; reflexivity))).
  vm_compute. reflexivity.
Defined.

(** The create of f1 on an empty ledger. *)
Lemma create_changes_three_keys_witness :
  (∀ key, key ≠ "f1" → key ≠ index_key "abc123" "f1" →
     collection (run (initFile []) (proposal {[ "file" := payload_f1_size ]} ∅)).2
       "collectionFiles" !! key
     = collection (proposal {[ "file" := payload_f1_size ]} ∅) "collectionFiles" !! key)
  ∧ (∀ key, key ≠ "f1" →
       collection (run (initFile []) (proposal {[ "file" := payload_f1_size ]} ∅)).2
         "collectionFilePrivateDetails" !! key
       = collection (proposal {[ "file" := payload_f1_size ]} ∅)
           "collectionFilePrivateDetails" !! key)
  ∧ (∀ c, c ≠ "collectionFiles" → c ≠ "collectionFilePrivateDetails" →
       collection (run (initFile []) (proposal {[ "file" := payload_f1_size ]} ∅)).2 c
       = collection (proposal {[ "file" := payload_f1_size ]} ∅) c).
Proof.
  apply (create_changes_three_keys (proposal {[ "file" := payload_f1_size ]} ∅)
           payload_f1_size input_f1 None).
  - by apply payload_proposal.
  - vm_compute. reflexivity.
  - apply run_response. vm_compute. reflexivity.
Defined.

(** After the create of f1, the range query from the empty key to z yields
    the record, and not the index entry, which is stored. *)
Lemma create_is_listed_by_range_witness :
  (∃ entries,
     range_iterator
       (collection (run (initFile []) (proposal {[ "file" := payload_f1_size ]} ∅)).2
          "collectionFiles") EmptyString "z" = Ok entries
     ∧ ("f1", json.Marshal_file (file_of input_f1)) ∈ entries)
  ∧ collection (run (initFile []) (proposal {[ "file" := payload_f1_size ]} ∅)).2
      "collectionFiles" !! index_key "abc123" "f1" = Some sentinel
  ∧ (∀ entries v,
       range_iterator
         (collection (run (initFile []) (proposal {[ "file" := payload_f1_size ]} ∅)).2
            "collectionFiles") EmptyString "z" = Ok entries →
       (index_key "abc123" "f1", v) ∉ entries).
Proof.
  destruct (create_is_listed_by_range (proposal {[ "file" := payload_f1_size ]} ∅)
              payload_f1_size input_f1 None
              (run (initFile []) (proposal {[ "file" := payload_f1_size ]} ∅)).2
              EmptyString "z") as (Hrecord & Hstored & Hentry).
  - by apply payload_proposal.
  - vm_compute. reflexivity.
  - reflexivity.
  - apply run_response. vm_compute. reflexivity.
  - split; [|split; [exact Hstored|exact Hentry]].
    apply Hrecord; [reflexivity..| |right]; by_compute.
Defined.

(** The delete of f1 on an empty ledger. *)
Lemma delete_rejected_before_any_write_witness :
  run (delete []) (proposal {[ "file_delete" := delete_f1 ]} ∅)
  = (shim.Error ("File does not exist: " +:+ "f1"),
     log (Call.GetPrivateData "collectionFiles" "f1")
       (log Call.GetTransient (proposal {[ "file_delete" := delete_f1 ]} ∅))).
Proof.
  destruct (delete_rejected_before_any_write (proposal {[ "file_delete" := delete_f1 ]} ∅)
              delete_f1 (fileDeleteTransientInput.mk "f1")) as (_ & Hname).
  - by apply payload_proposal.
  - vm_compute. reflexivity.
  - destruct (Hname ltac:(done)) as (_ & Hget).
    destruct (Hget eq_refl) as (Habsent & _). apply Habsent. vm_compute. reflexivity.
Defined.

(** The delete of f1 on the ledger that holds f1. *)
Lemma delete_removes_record_and_index_witness :
  ∃ value fileToDelete,
    collection (proposal {[ "file_delete" := delete_f1 ]} ledger_f1) "collectionFiles" !! "f1"
    = Some value
    ∧ json.Unmarshal_file value = Ok fileToDelete
    ∧ collection (run (delete []) (proposal {[ "file_delete" := delete_f1 ]} ledger_f1)).2
        "collectionFiles" !! "f1" = None
    ∧ collection (run (delete []) (proposal {[ "file_delete" := delete_f1 ]} ledger_f1)).2
        "collectionFiles" !! index_key (file.IPFShash fileToDelete) (file.Name fileToDelete)
      = None
    ∧ collection (run (delete []) (proposal {[ "file_delete" := delete_f1 ]} ledger_f1)).2
        "collectionFilePrivateDetails" !! "f1" = None.
Proof.
  apply (delete_removes_record_and_index
           (proposal {[ "file_delete" := delete_f1 ]} ledger_f1) delete_f1
           (fileDeleteTransientInput.mk "f1") None).
  - by apply payload_proposal.
  - vm_compute. reflexivity.
  - apply run_response. vm_compute. reflexivity.
Defined.

Lemma delete_changes_three_keys_witness :
  ∃ value fileToDelete,
    collection (proposal {[ "file_delete" := delete_f1 ]} ledger_f1) "collectionFiles" !! "f1"
    = Some value
    ∧ json.Unmarshal_file value = Ok fileToDelete
    ∧ (∀ key, key ≠ "f1" →
              key ≠ index_key (file.IPFShash fileToDelete) (file.Name fileToDelete) →
              collection (run (delete [])
                            (proposal {[ "file_delete" := delete_f1 ]} ledger_f1)).2
                "collectionFiles" !! key
              = collection (proposal {[ "file_delete" := delete_f1 ]} ledger_f1)
                  "collectionFiles" !! key)
    ∧ (∀ key, key ≠ "f1" →
              collection (run (delete [])
                            (proposal {[ "file_delete" := delete_f1 ]} ledger_f1)).2
                "collectionFilePrivateDetails" !! key
              = collection (proposal {[ "file_delete" := delete_f1 ]} ledger_f1)
                  "collectionFilePrivateDetails" !! key)
    ∧ (∀ c, c ≠ "collectionFiles" → c ≠ "collectionFilePrivateDetails" →
            collection (run (delete [])
                          (proposal {[ "file_delete" := delete_f1 ]} ledger_f1)).2 c
            = collection (proposal {[ "file_delete" := delete_f1 ]} ledger_f1) c)
    ∧ (∀ startKey endKey v,
         ("f1", v)
         ∉ range_entries
             (collection (run (delete [])
                            (proposal {[ "file_delete" := delete_f1 ]} ledger_f1)).2
                "collectionFiles") startKey endKey).
Proof.
  apply (delete_changes_three_keys
           (proposal {[ "file_delete" := delete_f1 ]} ledger_f1) delete_f1
           (fileDeleteTransientInput.mk "f1") None).
  - by apply payload_proposal.
  - vm_compute. reflexivity.
  - apply run_response. vm_compute. reflexivity.
Defined.

(** The delete of f1 on an adapter that fails the removal of the index
    key: the record is gone, the restricted record is there. *)
Lemma delete_failure_keeps_earlier_removals_witness :
  ∃ s',
    run (delete [])
      (faulty {[ "file_delete" := delete_f1 ]} ledger_f1 (fail_on is_index_delete "boom"))
    = (shim.Error ("Failed to delete state:" +:+ "boom"), s')
    ∧ collection s' "collectionFiles"
      = base.delete "f1"
          (collection (faulty {[ "file_delete" := delete_f1 ]} ledger_f1
                         (fail_on is_index_delete "boom")) "collectionFiles")
    ∧ collection s' "collectionFilePrivateDetails"
      = collection (faulty {[ "file_delete" := delete_f1 ]} ledger_f1
                      (fail_on is_index_delete "boom")) "collectionFilePrivateDetails".
Proof.
  destruct (delete_failure_keeps_earlier_removals
              (faulty {[ "file_delete" := delete_f1 ]} ledger_f1
                 (fail_on is_index_delete "boom"))
              delete_f1 (fileDeleteTransientInput.mk "f1") record_f1 (file_of input_f1) "boom")
    as (_ & Hkey).
  - by repeat split.
  - vm_compute. reflexivity.
  - done.
  - vm_compute. reflexivity.
  - vm_compute. reflexivity.
  - unfold succeed. repeat constructor; vm_compute; reflexivity.
  - destruct (Hkey eq_refl) as (Hdel & _). apply Hdel. vm_compute. reflexivity.
Defined.

(** The create of f1 on an empty ledger, then its delete. *)
Lemma create_then_delete_restores_ledger_witness :
  collection
    (run (delete [])
       (mkStub {[ "file_delete" := delete_f1 ]}
          (collections (run (initFile []) (proposal {[ "file" := payload_f1_size ]} ∅)).2)
          no_failure id [])).2 "collectionFiles"
  = collection (proposal {[ "file" := payload_f1_size ]} ∅) "collectionFiles"
  ∧ collection
      (run (delete [])
         (mkStub {[ "file_delete" := delete_f1 ]}
            (collections (run (initFile []) (proposal {[ "file" := payload_f1_size ]} ∅)).2)
            no_failure id [])).2 "collectionFilePrivateDetails"
    = collection (proposal {[ "file" := payload_f1_size ]} ∅) "collectionFilePrivateDetails".
Proof.
  apply (create_then_delete_restores_ledger
           (proposal {[ "file" := payload_f1_size ]} ∅) payload_f1_size input_f1 None
           (run (initFile []) (proposal {[ "file" := payload_f1_size ]} ∅)).2
           (mkStub {[ "file_delete" := delete_f1 ]}
              (collections
                 (run (initFile []) (proposal {[ "file" := payload_f1_size ]} ∅)).2)
              no_failure id [])
           delete_f1 (fileDeleteTransientInput.mk "f1") None).
  - by apply payload_proposal.
  - vm_compute. reflexivity.
  - apply run_response. vm_compute. reflexivity.
  - vm_compute. reflexivity.
  - vm_compute. reflexivity.
  - vm_compute. reflexivity.
  - apply collections_mkStub.
  - by repeat split.
  - vm_compute. reflexivity.
  - reflexivity.
  - apply run_response. vm_compute. reflexivity.
Defined.

(** The transfer of f1 on an empty ledger. *)
Lemma transfer_rejected_before_any_write_witness :
  run (transferFile []) (proposal {[ "file_owner" := transfer_f1 ]} ∅)
  = (shim.Error ("File does not exist: " +:+ "f1"),
     log (Call.GetPrivateData "collectionFiles" "f1")
       (log Call.GetTransient (proposal {[ "file_owner" := transfer_f1 ]} ∅))).
Proof.
  destruct (transfer_rejected_before_any_write
              (proposal {[ "file_owner" := transfer_f1 ]} ∅) transfer_f1
              (fileTransferTransientInput.mk "f1" "orgB")) as (_ & _ & Hname).
  - by apply payload_proposal.
  - vm_compute. reflexivity.
  - destruct (Hname ltac:(done) ltac:(done)) as (_ & Hget).
    destruct (Hget eq_refl) as (Habsent & _). apply Habsent. vm_compute. reflexivity.
Defined.

(** The transfer of f1 on a ledger whose record under f1 carries the name
    f2: the value under f1 stays, the value under f2 is replaced. *)
Lemma transfer_writes_under_stored_name_witness :
  collection (run (transferFile [])
                (proposal {[ "file_owner" := transfer_f1 ]} ledger_misnamed)).2
    "collectionFiles" !! "f1" = Some record_f2_named
  ∧ collection (run (transferFile [])
                  (proposal {[ "file_owner" := transfer_f1 ]} ledger_misnamed)).2
      "collectionFiles" !! "f2"
    = Some (json.Marshal_file (file.mk "file" "f2" "abc123" 100 "orgB")).
Proof.
  destruct (transfer_writes_under_stored_name
              (proposal {[ "file_owner" := transfer_f1 ]} ledger_misnamed) transfer_f1
              (fileTransferTransientInput.mk "f1" "orgB") record_f2_named
              (file.mk "file" "f2" "abc123" 100 "orgA") None
              (run (transferFile [])
                 (proposal {[ "file_owner" := transfer_f1 ]} ledger_misnamed)).2)
    as (_ & Hother).
  - by apply payload_proposal.
  - vm_compute. reflexivity.
  - vm_compute. reflexivity.
  - vm_compute. reflexivity.
  - apply run_response. vm_compute. reflexivity.
  - apply Hother. done.
Defined.

(** The create of f1, its transfer to orgB, and the two readers. *)
Lemma create_then_transfer_then_read_witness :
  (run (readFile ["f1"])
     (proposal ∅
        (collections
           (run (transferFile [])
              (mkStub {[ "file_owner" := transfer_f1 ]}
                 (collections
                    (run (initFile []) (proposal {[ "file" := payload_f1_size ]} ∅)).2)
                 no_failure id [])).2))).1
  = shim.Success (Some (json.Marshal_file (file.mk "file" "f1" "abc123" 100 "orgB")))
  ∧ (run (readFilePrivateDetails ["f1"])
       (proposal ∅
          (collections
             (run (transferFile [])
                (mkStub {[ "file_owner" := transfer_f1 ]}
                   (collections
                      (run (initFile []) (proposal {[ "file" := payload_f1_size ]} ∅)).2)
                   no_failure id [])).2))).1
    = shim.Success (Some (json.Marshal_filePrivateDetails (details_of input_f1))).
Proof.
  apply (create_then_transfer_then_read
           (proposal {[ "file" := payload_f1_size ]} ∅) payload_f1_size input_f1 None
           (run (initFile []) (proposal {[ "file" := payload_f1_size ]} ∅)).2
           (mkStub {[ "file_owner" := transfer_f1 ]}
              (collections
                 (run (initFile []) (proposal {[ "file" := payload_f1_size ]} ∅)).2)
              no_failure id [])
           transfer_f1 (fileTransferTransientInput.mk "f1" "orgB") None
           (run (transferFile [])
              (mkStub {[ "file_owner" := transfer_f1 ]}
                 (collections
                    (run (initFile []) (proposal {[ "file" := payload_f1_size ]} ∅)).2)
                 no_failure id [])).2).
  - by apply payload_proposal.
  - vm_compute. reflexivity.
  - apply run_response. vm_compute. reflexivity.
  - vm_compute. reflexivity.
  - apply collections_mkStub.
  - by repeat split.
  - vm_compute. reflexivity.
  - reflexivity.
  - apply run_response. vm_compute. reflexivity.
  - apply collections_mkStub.
  - unfold succeed. by repeat constructor.
Defined.

(** A range query over three entries on an adapter that fails the step of
    the iterator that yields the second one. *)
Lemma range_scan_answers_first_error_witness :
  (run (getFilesByRange ["a"; "z"])
     (faulty ∅ ledger_abc (fail_on (is_next_of "b") "boom"))).1
  = shim.Error "boom".
Proof.
  destruct (range_scan_answers_first_error
              (faulty ∅ ledger_abc (fail_on (is_next_of "b") "boom")) "a" "z")
    as [_ Hiter].
  apply (Hiter eq_refl [("a", "1")] ("b", "2") [("c", "3")] "boom").
  - vm_compute. reflexivity.
  - by repeat constructor.
  - reflexivity.
Defined.

End MoreScenarios.

(** ** When a mutation answers success *)

Section Success.
Context `{!json.Codec}.
Implicit Types (s : ChaincodeStub).

(** X21: a create whose payload decodes answers success exactly when the
    payload meets the five rules, the name is not a key of the shared
    partition, and the adapter reports no error on the read of the name, on
    the two writes of the records and on the making of the index key. The
    write of the index entry has no part in it. *)
Theorem create_succeeds_iff s data (input : fileTransientInput.t) :
  payload s "file" data →
  json.Unmarshal_fileTransientInput data = Ok input →
  (∃ r s', run (initFile []) s = (shim.Success r, s'))
  ↔ valid_input input
    ∧ collection s "collectionFiles" !! fileTransientInput.Name input = None
    ∧ succeed s (create_calls input).
Proof.
  intros Hp Hin. split.
  - intros (r & s' & Hrun). by apply (initFile_success_inv s data input r s').
  - intros (Hv & Hfree & Hok).
    destruct (initFile_succeeds s data input Hp Hin Hv Hfree Hok) as (s' & Hrun & _).
    by exists None, s'.
Qed.

(** X22: a transfer whose payload decodes, on a name whose stored value
    decodes, answers success exactly when the name and the owner of the
    payload are not empty and the adapter reports no error on the read of
    the name and on the write of the record. *)
Theorem transfer_succeeds_iff s data (input : fileTransferTransientInput.t) value f :
  payload s "file_owner" data →
  json.Unmarshal_fileTransferTransientInput data = Ok input →
  collection s "collectionFiles" !! fileTransferTransientInput.Name input = Some value →
  json.Unmarshal_file value = Ok f →
  (∃ r s', run (transferFile []) s = (shim.Success r, s'))
  ↔ fileTransferTransientInput.Name input ≠ EmptyString
    ∧ fileTransferTransientInput.Owner input ≠ EmptyString
    ∧ succeed s (transfer_calls input f).
Proof.
  intros Hp Hin Hv Hf. split.
  - intros (r & s' & Hrun). by apply (transferFile_success_inv s data input value f r s').
  - intros (Hn & Ho & Hok).
    destruct (transferFile_succeeds s data input value f Hp Hin Hn Ho Hv Hf Hok)
      as (s' & Hrun & _).
    by exists None, s'.
Qed.

(** X23: a transfer does not detach a record from its index entry: after a
    transfer and a delete of the same name, both answering success, the
    name is a key of neither partition and the index key of the hash and
    name that the record had before the transfer is not a key of the shared
    partition. The record is stored under the name it carries, and the
    record written by the transfer is assumed to decode to itself. *)
Theorem transfer_then_delete_removes_index
    s (data : bytes) (input : fileTransferTransientInput.t) (value : bytes) (f : file.t)
    (r : option bytes) s1 s2
    (data2 : bytes) (input2 : fileDeleteTransientInput.t) (r2 : option bytes) s3 :
  payload s "file_owner" data →
  json.Unmarshal_fileTransferTransientInput data = Ok input →
  collection s "collectionFiles" !! fileTransferTransientInput.Name input = Some value →
  json.Unmarshal_file value = Ok f →
  file.Name f = fileTransferTransientInput.Name input →
  run (transferFile []) s = (shim.Success r, s1) →
  json.Unmarshal_file
    (json.Marshal_file (with_owner f (fileTransferTransientInput.Owner input)))
  = Ok (with_owner f (fileTransferTransientInput.Owner input)) →
  collections s2 = collections s1 →
  payload s2 "file_delete" data2 →
  json.Unmarshal_fileDeleteTransientInput data2 = Ok input2 →
  fileDeleteTransientInput.Name input2 = fileTransferTransientInput.Name input →
  run (delete []) s2 = (shim.Success r2, s3) →
  collection s3 "collectionFiles" !! fileTransferTransientInput.Name input = None
  ∧ collection s3 "collectionFiles"
      !! index_key (file.IPFShash f) (fileTransferTransientInput.Name input) = None
  ∧ collection s3 "collectionFilePrivateDetails"
      !! fileTransferTransientInput.Name input = None.
Proof.
  intros Hp Hin Hv Hf Hname Hrun Hround Hsame Hp2 Hin2 Hname2 Hrun2.
  destruct (transferFile_success_inv s data input value f r s1 Hp Hin Hv Hf Hrun)
    as (Hn & Ho & Hok).
  destruct (transferFile_succeeds s data input value f Hp Hin Hn Ho Hv Hf Hok)
    as (s1' & Hrun' & _ & _ & Hcs & _).
  rewrite Hrun in Hrun'. injection Hrun' as _ <-.
  destruct (delete_success_inv s2 data2 input2 r2 s3 Hp2 Hin2 Hrun2)
    as (value2 & f2 & Hv2 & Hf2 & Hshared3 & Hdetails3 & _).
  rewrite Hname2 in *.
  assert (Hshared1 : collection s1 "collectionFiles"
    = <[file.Name f := json.Marshal_file
          (with_owner f (fileTransferTransientInput.Owner input))]>
        (collection s "collectionFiles")).
  { unfold collection at 1. by rewrite Hcs, lookup_insert_eq. }
  rewrite (collection_ext s2 s1), Hshared1, Hname, lookup_insert_eq in Hv2 by done.
  injection Hv2 as <-. rewrite Hround in Hf2. injection Hf2 as <-.
  cbn [with_owner file.IPFShash file.Name] in Hshared3. rewrite Hname in Hshared3.
  rewrite Hshared3, Hdetails3, !lookup_delete_eq. repeat split; try done.
  destruct (decide (index_key (file.IPFShash f) (fileTransferTransientInput.Name input)
                    = fileTransferTransientInput.Name input)) as [Heq|Hne].
  - by rewrite Heq, lookup_delete_eq.
  - by rewrite lookup_delete_ne, lookup_delete_eq.
Qed.

End Success.

(** ** The success properties on the scenarios *)

Section SuccessScenarios.
Local Existing Instance encoding_json.

(** The create of f1 on an empty ledger. *)
Lemma create_succeeds_iff_witness :
  (∃ r s', run (initFile []) (proposal {[ "file" := payload_f1_size ]} ∅)
           = (shim.Success r, s'))
  ↔ valid_input input_f1
    ∧ collection (proposal {[ "file" := payload_f1_size ]} ∅) "collectionFiles" !! "f1" = None
    ∧ succeed (proposal {[ "file" := payload_f1_size ]} ∅) (create_calls input_f1).
Proof.
  apply (create_succeeds_iff (proposal {[ "file" := payload_f1_size ]} ∅)
           payload_f1_size input_f1).
  - by apply payload_proposal.
  - vm_compute. reflexivity.
Defined.

(** The transfer of f1 to orgB on the ledger that holds f1. *)
Lemma transfer_succeeds_iff_witness :
  (∃ r s', run (transferFile []) (proposal {[ "file_owner" := transfer_f1 ]} ledger_f1)
           = (shim.Success r, s'))
  ↔ "f1" ≠ EmptyString ∧ "orgB" ≠ EmptyString
    ∧ succeed (proposal {[ "file_owner" := transfer_f1 ]} ledger_f1)
        (transfer_calls (fileTransferTransientInput.mk "f1" "orgB") (file_of input_f1)).
Proof.
  apply (transfer_succeeds_iff (proposal {[ "file_owner" := transfer_f1 ]} ledger_f1)
           transfer_f1 (fileTransferTransientInput.mk "f1" "orgB") record_f1
           (file_of input_f1)).
  - by apply payload_proposal.
  - vm_compute. reflexivity.
  - vm_compute. reflexivity.
  - vm_compute. reflexivity.
Defined.

(** The transfer of f1 to orgB on the ledger that holds f1, then the
    delete of f1. *)
Lemma transfer_then_delete_removes_index_witness :
  collection
    (run (delete [])
       (mkStub {[ "file_delete" := delete_f1 ]}
          (collections
             (run (transferFile [])
                (proposal {[ "file_owner" := transfer_f1 ]} ledger_f1)).2)
          no_failure id [])).2 "collectionFiles" !! "f1" = None
  ∧ collection
      (run (delete [])
         (mkStub {[ "file_delete" := delete_f1 ]}
            (collections
               (run (transferFile [])
                  (proposal {[ "file_owner" := transfer_f1 ]} ledger_f1)).2)
            no_failure id [])).2 "collectionFiles" !! index_key "abc123" "f1" = None
  ∧ collection
      (run (delete [])
         (mkStub {[ "file_delete" := delete_f1 ]}
            (collections
               (run (transferFile [])
                  (proposal {[ "file_owner" := transfer_f1 ]} ledger_f1)).2)
            no_failure id [])).2 "collectionFilePrivateDetails" !! "f1" = None.
Proof.
  apply (transfer_then_delete_removes_index
           (proposal {[ "file_owner" := transfer_f1 ]} ledger_f1) transfer_f1
           (fileTransferTransientInput.mk "f1" "orgB") record_f1 (file_of input_f1) None
           (run (transferFile []) (proposal {[ "file_owner" := transfer_f1 ]} ledger_f1)).2
           (mkStub {[ "file_delete" := delete_f1 ]}
              (collections
                 (run (transferFile [])
                    (proposal {[ "file_owner" := transfer_f1 ]} ledger_f1)).2)
              no_failure id [])
           delete_f1 (fileDeleteTransientInput.mk "f1") None).
  - by apply payload_proposal.
  - vm_compute. reflexivity.
  - vm_compute. reflexivity.
  - vm_compute. reflexivity.
  - reflexivity.
  - apply run_response. vm_compute. reflexivity.
  - vm_compute. reflexivity.
  - apply collections_mkStub.
  - by repeat split.
  - vm_compute. reflexivity.
  - reflexivity.
  - apply run_response. vm_compute. reflexivity.
Defined.

End SuccessScenarios.
